(** * Page objects of the Sauce Demo acceptance suite: a shallow embedding

    The suite drives a browser through Playwright page objects.  This file
    embeds the page-object methods and the retry helper as programs of a small
    state-and-exception monad over an abstract browser session, and proves the
    properties the specification states about them.

    Conventions.
    - A JavaScript string is a [string]: a sequence of code units, here the
      code units U+0000..U+00FF (Latin-1).  [===] on strings is [=].
    - A rejected promise / thrown value is [Throw e]; [await] propagates it.
    - The browser, the page under test and the passing of time are external:
      they are the operations of the [Driver] class, about which nothing is
      assumed.  Every command the code sends is recorded in a trace. *)

From Stdlib Require Import String Ascii List ZArith Lia Bool Permutation Arith.
From Stdlib Require Import Decimal DecimalString DecimalNat.
From Stdlib Require Floats QArith Qround Qabs.
Import ListNotations.
Local Open Scope string_scope.
Local Open Scope list_scope.
Local Open Scope nat_scope.

(** ** JavaScript strings *)

Module Js.

(** White space and line terminators of ECMAScript among U+0000..U+00FF:
    TAB, LF, VT, FF, CR, SP and NBSP. *)
Definition isWhiteSpace (c : ascii) : bool :=
  let n := nat_of_ascii c in
  ((9 <=? n) && (n <=? 13)) || (n =? 32) || (n =? 160).

Fixpoint trimStart (s : string) : string :=
  match s with
  | EmptyString => EmptyString
  | String c r => if isWhiteSpace c then trimStart r else s
  end.

Fixpoint trimEnd (s : string) : string :=
  match s with
  | EmptyString => EmptyString
  | String c r =>
      match trimEnd r with
      | EmptyString => if isWhiteSpace c then EmptyString else String c EmptyString
      | r' => String c r'
      end
  end.

(** [String.prototype.trim] *)
Definition trim (s : string) : string := trimEnd (trimStart s).

(** Lower-case mapping of one code unit: A..Z, and the Latin-1 capitals
    U+00C0..U+00DE except the multiplication sign U+00D7. *)
Definition lowerChar (c : ascii) : ascii :=
  let n := nat_of_ascii c in
  if ((65 <=? n) && (n <=? 90))
     || ((192 <=? n) && (n <=? 222) && negb (n =? 215))
  then ascii_of_nat (n + 32) else c.

(** [String.prototype.toLowerCase] *)
Fixpoint toLowerCase (s : string) : string :=
  match s with
  | EmptyString => EmptyString
  | String c r => String (lowerChar c) (toLowerCase r)
  end.

(** [String.prototype.includes] *)
Fixpoint includes (s sub : string) : bool :=
  String.prefix sub s ||
  match s with
  | EmptyString => false
  | String _ r => includes r sub
  end.

(** [Array.prototype.includes] on an array of strings, which is also the
    membership test of [expect(array).toContain(string)]. *)
Fixpoint contains (l : list string) (x : string) : bool :=
  match l with
  | [] => false
  | y :: r => String.eqb y x || contains r x
  end.

(** JavaScript numbers, as far as the suite reads them from the page: an
    integer or NaN.  An integer stands for the double nearest to it (the
    integer itself up to 2^53); -0 is not told apart from 0. *)
Inductive number : Type :=
| NaN
| Num (z : Z).

Definition digitValue (c : ascii) : option Z :=
  let n := nat_of_ascii c in
  if (48 <=? n) && (n <=? 57) then Some (Z.of_nat (n - 48)) else None.

Definition hexDigitValue (c : ascii) : option Z :=
  let n := nat_of_ascii c in
  if (48 <=? n) && (n <=? 57) then Some (Z.of_nat (n - 48))
  else if (97 <=? n) && (n <=? 102) then Some (Z.of_nat (n - 87))
  else if (65 <=? n) && (n <=? 70) then Some (Z.of_nat (n - 55))
  else None.

(** The longest prefix of [s] made of digits, read in radix [radix] on top
    of the accumulator: [None] while no digit has been read. *)
Fixpoint readDigits (value : ascii -> option Z) (radix : Z)
         (acc : option Z) (s : string) : option Z :=
  match s with
  | EmptyString => acc
  | String c r =>
      match value c with
      | Some d =>
          readDigits value radix
            (Some (match acc with Some a => (a * radix + d)%Z | None => d end)) r
      | None => acc
      end
  end.

(** [parseInt(s)] with the radix left undefined: leading white space is
    skipped, then an optional sign, then an optional 0x / 0X prefix (which
    switches to radix 16), then the longest run of digits; NaN when that
    run is empty. *)
Definition parseInt (s : string) : number :=
  let s1 := trimStart s in
  let '(sign, s2) :=
    match s1 with
    | String "-" r => ((-1)%Z, r)
    | String "+" r => (1%Z, r)
    | _ => (1%Z, s1)
    end in
  let digits :=
    match s2 with
    | String "0" (String "x" r) => readDigits hexDigitValue 16%Z None r
    | String "0" (String "X" r) => readDigits hexDigitValue 16%Z None r
    | _ => readDigits digitValue 10%Z None s2
    end in
  match digits with
  | Some v => Num (sign * v)%Z
  | None => NaN
  end.

End Js.

(** ** Thrown values, locators and the browser driver *)

(** What a rejected promise carries.  [Undefined] is the value of a variable
    that was declared and never assigned.  The error of a failed [expect]
    names the matcher, what was received and what was expected. *)
Inductive exn : Type :=
| Undefined
| Error (message : string)
| TimeoutError (message : string)
| ToContainFailed (received : list string) (expected : string)
| ToBeFailed (received expected : nat)
| ToBeLessThanFailed (received expected : PrimFloat.float).

(** The settled state of a promise. *)
Inductive outcome (A : Type) : Type :=
| Ok (a : A)
| Throw (e : exn).
Arguments Ok {A} a.
Arguments Throw {A} e.

(** [page.locator(css)], [locator.nth(i)] and [locator.locator(css)]. *)
Inductive Locator : Type :=
| Css (selector : string)
| Nth (l : Locator) (i : nat)
| Sub (l : Locator) (selector : string).

(** The commands that act on the page; [WaitFor] carries its timeout in
    milliseconds. *)
Inductive Action : Type :=
| Click (l : Locator)
| Clear (l : Locator)
| Fill (l : Locator) (value : string)
| WaitFor (l : Locator) (timeout : Z).

(** What a run leaves in its trace: a command sent to the page, a timer that
    was awaited, a call of a wrapped function. *)
Inductive Event : Type :=
| Did (a : Action)
| Slept (ms : Z)
| Invoked.

(** The browser automation library as the page objects use it.  Queries read
    the current page; actions and the passing of time may change it.  A query
    or an action on an element that never shows up rejects. *)
Class Driver (B : Type) : Type := {
  textContent_of : B -> Locator -> outcome (option string);
  allTextContents_of : B -> Locator -> list string;
  count_of : B -> Locator -> nat;
  perform : Action -> B -> outcome unit * B;
  elapse : Z -> B -> B
}.

Record Session (B : Type) : Type := mkSession {
  browser : B;
  trace : list Event
}.
Arguments mkSession {B} browser trace.
Arguments browser {B} s.
Arguments trace {B} s.

(** ** The monad of asynchronous page-object code *)

Definition M (B A : Type) : Type := Session B -> outcome A * Session B.

Definition ret {B A} (a : A) : M B A := fun s => (Ok a, s).

Definition throw {B A} (e : exn) : M B A := fun s => (Throw e, s).

Definition bind {B A C} (m : M B A) (k : A -> M B C) : M B C :=
  fun s =>
    match m s with
    | (Ok a, s') => k a s'
    | (Throw e, s') => (Throw e, s')
    end.

Declare Scope js_scope.
Delimit Scope js_scope with js.
Notation "x <- c ;; k" := (bind c (fun x => k))
  (at level 100, c at next level, right associativity) : js_scope.
Notation "c ;; k" := (bind c (fun _ => k))
  (at level 100, right associativity) : js_scope.
Local Open Scope js_scope.

(** [try { body } catch { handler }] *)
Definition try_catch {B A} (body : M B A) (handler : exn -> M B A) : M B A :=
  fun s =>
    match body s with
    | (Ok a, s') => (Ok a, s')
    | (Throw e, s') => handler e s'
    end.

(** [for (const x of l) { body(x) }] without [break]. *)
Fixpoint for_of {B A} (l : list A) (body : A -> M B unit) : M B unit :=
  match l with
  | [] => ret tt
  | x :: r => body x ;; for_of r body
  end.

Section Primitives.
Context {B : Type} `{Driver B}.

(** An awaited action on the page. *)
Definition act (a : Action) : M B unit :=
  fun s =>
    let '(r, b') := perform a (browser s) in
    (r, mkSession b' (trace s ++ [Did a])).

Definition click (l : Locator) : M B unit := act (Click l).
Definition clear (l : Locator) : M B unit := act (Clear l).
Definition fill (l : Locator) (v : string) : M B unit := act (Fill l v).
Definition waitFor (l : Locator) (timeout : Z) : M B unit :=
  act (WaitFor l timeout).

(** Awaited queries. *)
Definition textContent (l : Locator) : M B (option string) :=
  fun s => (textContent_of (browser s) l, s).

Definition allTextContents (l : Locator) : M B (list string) :=
  fun s => (Ok (allTextContents_of (browser s) l), s).

(** [locator.all()]: one [nth] locator per matching element. *)
Definition all (l : Locator) : M B (list Locator) :=
  fun s => (Ok (map (Nth l) (seq 0 (count_of (browser s) l))), s).

(** [await new Promise(resolve => setTimeout(resolve, ms))] *)
Definition sleep (ms : Z) : M B unit :=
  fun s => (Ok tt, mkSession (elapse ms (browser s)) (trace s ++ [Slept ms])).

(** A call of a function value received as an argument. *)
Definition invoke {A} (fn : M B A) : M B A :=
  fun s => fn (mkSession (browser s) (trace s ++ [Invoked])).

End Primitives.

(** [expect(received).toContain(item)] on an array of strings. *)
Definition expect_toContain {B} (received : list string) (item : string) : M B unit :=
  if Js.contains received item then ret tt
  else throw (ToContainFailed received item).

(** [expect(received).toBe(expected)] on array lengths. *)
Definition expect_toBe {B} (received expected : nat) : M B unit :=
  if received =? expected then ret tt
  else throw (ToBeFailed received expected).

(** The first of the expected names that is not among the received ones. *)
Fixpoint first_missing (received expected : list string) : option string :=
  match expected with
  | [] => None
  | e :: r => if Js.contains received e then first_missing received r else Some e
  end.

(** The two checks that [verifyCartItems] and [verifyOrderItems] make on the
    names they have read. *)
Definition items_check {B} (actual expected : list string) : M B unit :=
  for_of expected (fun e => expect_toContain actual e) ;;
  expect_toBe (length actual) (length expected).

(** A double quote, and the attribute selectors built with it. *)
Definition dq : string := String (ascii_of_nat 34) EmptyString.
Definition dataTest (v : string) : string := "[data-test=" ++ dq ++ v ++ dq ++ "]".
Definition dataTestPrefix (v : string) : string := "[data-test^=" ++ dq ++ v ++ dq ++ "]".

(** [x ? f(x) : dflt] for a [string | null]: null and the empty string are
    falsy. *)
Definition if_truthy {A} (x : option string) (f : string -> A) (dflt : A) : A :=
  match x with
  | None => dflt
  | Some EmptyString => dflt
  | Some t => f t
  end.

(** ** InventoryPage *)

Module InventoryPage.

Definition cartBadge : Locator := Css ".shopping_cart_badge".
Definition sauceLabsBackpack : Locator :=
  Css (dataTest "add-to-cart-sauce-labs-backpack").
Definition sauceLabsBikeLight : Locator :=
  Css (dataTest "add-to-cart-sauce-labs-bike-light").
Definition sauceLabsBoltTShirt : Locator :=
  Css (dataTest "add-to-cart-sauce-labs-bolt-t-shirt").

Section Methods.
Context {B : Type} `{Driver B}.

Definition addBackpackToCart : M B unit := click sauceLabsBackpack.
Definition addBikeLightToCart : M B unit := click sauceLabsBikeLight.
Definition addBoltTShirtToCart : M B unit := click sauceLabsBoltTShirt.

(** The [switch (item.toLowerCase())] of [addItemsToCart]. *)
Definition addItemsToCart_switch (item : string) : M B unit :=
  let key := Js.toLowerCase item in
  if String.eqb key "sauce labs backpack" then addBackpackToCart
  else if String.eqb key "sauce labs bike light" then addBikeLightToCart
  else if String.eqb key "sauce labs bolt t-shirt" then addBoltTShirtToCart
  else throw (Error ("Unknown item: " ++ item)).

Definition addItemsToCart (items : list string) : M B unit :=
  for_of items addItemsToCart_switch.

Definition getCartItemCount : M B Js.number :=
  try_catch
    (badgeText <- textContent cartBadge ;;
     ret (if_truthy badgeText Js.parseInt (Js.Num 0)))
    (fun _ => ret (Js.Num 0)).

End Methods.
End InventoryPage.

(** ** CartPage *)

Module CartPage.

Definition cartItems : Locator := Css ".cart_item".
Definition cartItemNames : Locator := Css ".inventory_item_name".

Section Methods.
Context {B : Type} `{Driver B}.

Definition getCartItemNames : M B (list string) :=
  names <- allTextContents cartItemNames ;;
  ret (map Js.trim names).

Definition verifyCartItems (expectedItems : list string) : M B unit :=
  actualItems <- getCartItemNames ;;
  for_of expectedItems (fun expectedItem =>
    expect_toContain actualItems expectedItem) ;;
  expect_toBe (length actualItems) (length expectedItems).

(** [name?.trim() === itemName] *)
Definition name_matches (name : option string) (itemName : string) : bool :=
  match name with
  | Some n => String.eqb (Js.trim n) itemName
  | None => false
  end.

(** The [for ... of items] of [removeItemFromCart]; the [break] after the
    click ends the loop. *)
Fixpoint removeItemFromCart_loop (items : list Locator) (itemName : string)
  : M B unit :=
  match items with
  | [] => ret tt
  | item :: rest =>
      name <- textContent (Sub item ".inventory_item_name") ;;
      if name_matches name itemName
      then click (Sub item (dataTestPrefix "remove-"))
      else removeItemFromCart_loop rest itemName
  end.

Definition removeItemFromCart (itemName : string) : M B unit :=
  items <- all cartItems ;;
  removeItemFromCart_loop items itemName.

End Methods.
End CartPage.

(** ** CheckoutPage *)

Module CheckoutPage.

Definition firstNameInput : Locator := Css (dataTest "firstName").
Definition lastNameInput : Locator := Css (dataTest "lastName").
Definition postalCodeInput : Locator := Css (dataTest "postalCode").
Definition errorMessage : Locator := Css (dataTest "error").

Section Methods.
Context {B : Type} `{Driver B}.

Definition fillFirstName (firstName : string) : M B unit :=
  clear firstNameInput ;; fill firstNameInput firstName.

Definition fillLastName (lastName : string) : M B unit :=
  clear lastNameInput ;; fill lastNameInput lastName.

Definition fillPostalCode (postalCode : string) : M B unit :=
  clear postalCodeInput ;; fill postalCodeInput postalCode.

Definition fillCheckoutInformation (firstName lastName postalCode : string)
  : M B unit :=
  fillFirstName firstName ;;
  fillLastName lastName ;;
  fillPostalCode postalCode.

Definition getErrorMessage : M B (option string) :=
  try_catch
    (waitFor errorMessage 5000 ;; textContent errorMessage)
    (fun _ => ret None).

End Methods.
End CheckoutPage.

(** ** CheckoutOverviewPage *)

Module CheckoutOverviewPage.

Definition cartItemNames : Locator := Css ".inventory_item_name".

Section Methods.
Context {B : Type} `{Driver B}.

Definition getCartItemNames : M B (list string) :=
  names <- allTextContents cartItemNames ;;
  ret (map Js.trim names).

Definition verifyOrderItems (expectedItems : list string) : M B unit :=
  actualItems <- getCartItemNames ;;
  for_of expectedItems (fun expectedItem =>
    expect_toContain actualItems expectedItem) ;;
  expect_toBe (length actualItems) (length expectedItems).

End Methods.
End CheckoutOverviewPage.

(** ** CheckoutCompletePage *)

Module CheckoutCompletePage.

Definition completeHeader : Locator := Css ".complete-header".
Definition completeText : Locator := Css ".complete-text".

Section Methods.
Context {B : Type} `{Driver B}.

Definition getCompleteHeaderText : M B string :=
  headerText <- textContent completeHeader ;;
  ret (if_truthy headerText Js.trim "").

Definition getCompleteText : M B string :=
  completeText <- textContent completeText ;;
  ret (if_truthy completeText Js.trim "").

Definition verifyCheckoutCompletion : M B bool :=
  headerText <- getCompleteHeaderText ;;
  completeText <- getCompleteText ;;
  ret (String.eqb headerText "Thank you for your order!"
       && Js.includes completeText "Your order has been dispatched").

Definition verifyOrderDispatchMessage : M B bool :=
  completeText <- getCompleteText ;;
  ret (Js.includes completeText "Your order has been dispatched"
       && Js.includes completeText
            "will arrive just as fast as the pony can get there!").

End Methods.
End CheckoutCompletePage.

(** ** LoginPage *)

Module LoginPage.

Definition usernameInput : Locator := Css (dataTest "username").
Definition passwordInput : Locator := Css (dataTest "password").
Definition loginButton : Locator := Css (dataTest "login-button").
Definition errorMessage : Locator := Css (dataTest "error").

Section Methods.
Context {B : Type} `{Driver B}.

Definition fillUsername (username : string) : M B unit :=
  clear usernameInput ;; fill usernameInput username.

Definition fillPassword (password : string) : M B unit :=
  clear passwordInput ;; fill passwordInput password.

Definition clickLogin : M B unit := click loginButton.

Definition login (username password : string) : M B unit :=
  fillUsername username ;;
  fillPassword password ;;
  clickLogin.

Definition getErrorMessage : M B (option string) :=
  try_catch
    (waitFor errorMessage 5000 ;; textContent errorMessage)
    (fun _ => ret None).

End Methods.
End LoginPage.

(** ** TestHelpers *)

Module TestHelpers.

Section Methods.
Context {B : Type} `{Driver B} {T : Type}.

(** One pass through the body of the [for] loop of [retryWithBackoff]:
    [inl v] when the [try] returned [v], [inr error] when the [catch]
    block ran to its end, so that the loop goes on with
    [lastError = error]. *)
Definition retryWithBackoff_body (fn : M B T) (maxRetries baseDelay : Z)
           (attempt : Z) : M B (T + exn) :=
  try_catch
    (v <- invoke fn ;; ret (inl v))
    (fun error =>
       if (attempt =? maxRetries)%Z then throw error
       else
         let delay := (baseDelay * 2 ^ attempt)%Z in
         sleep delay ;; ret (inr error)).

(** The loop [for (attempt; attempt <= maxRetries; attempt++)] followed by
    [throw lastError!].  [fuel] bounds the number of passes. *)
Fixpoint retryWithBackoff_loop (fn : M B T) (maxRetries baseDelay : Z)
         (fuel : nat) (attempt : Z) (lastError : exn) : M B T :=
  match fuel with
  | O => throw lastError
  | S fuel' =>
      if (attempt <=? maxRetries)%Z then
        r <- retryWithBackoff_body fn maxRetries baseDelay attempt ;;
        match r with
        | inl v => ret v
        | inr error =>
            retryWithBackoff_loop fn maxRetries baseDelay fuel'
              (attempt + 1)%Z error
        end
      else throw lastError
  end.

(** [maxRetries] is an integer; the loop then makes [maxRetries + 1]
    passes at most ([attempt] = 0, ..., [maxRetries]), which is the fuel
    given. *)
Definition retryWithBackoff (fn : M B T) (maxRetries baseDelay : Z) : M B T :=
  retryWithBackoff_loop fn maxRetries baseDelay
    (Z.to_nat (maxRetries + 1)) 0%Z Undefined.

End Methods.
End TestHelpers.

(** ** A scripted browser

    A page whose queries are answered from tables.  A click, a clear or a
    fill succeeds and changes nothing but a count of the actions received; a
    wait for an element succeeds when the element has an entry in the table
    of texts and times out otherwise; the page counts the timers it has seen
    expire.  It serves to run the page objects on concrete pages. *)

Fixpoint Locator_eqb (a b : Locator) : bool :=
  match a, b with
  | Css x, Css y => String.eqb x y
  | Nth l i, Nth m j => Locator_eqb l m && (i =? j)
  | Sub l x, Sub m y => Locator_eqb l m && String.eqb x y
  | _, _ => false
  end.

Module Scripted.

Record Page : Type := mkPage {
  texts : list (Locator * option string);
  lists : list (Locator * list string);
  actions : nat;
  timers : nat
}.

Fixpoint lookup {A} (l : Locator) (table : list (Locator * A)) : option A :=
  match table with
  | [] => None
  | (k, v) :: r => if Locator_eqb k l then Some v else lookup l r
  end.

(** The number of elements matching [l]: one per entry of the table of texts
    that is keyed by a descendant of some [l.nth(i)]. *)
Definition rows (l : Locator) (p : Page) : nat :=
  length (filter (fun kv =>
                    match fst kv with
                    | Sub (Nth m _) _ => Locator_eqb m l
                    | _ => false
                    end) (texts p)).

#[global] Instance driver : Driver Page := {
  textContent_of p l :=
    match lookup l (texts p) with
    | Some t => Ok t
    | None => Throw (TimeoutError "locator.textContent: Timeout exceeded")
    end;
  allTextContents_of p l :=
    match lookup l (lists p) with
    | Some ts => ts
    | None => []
    end;
  count_of p l := rows l p;
  perform a p :=
    match a with
    | WaitFor l _ =>
        match lookup l (texts p) with
        | Some _ => (Ok tt, p)
        | None => (Throw (TimeoutError "locator.waitFor: Timeout exceeded"), p)
        end
    | _ => (Ok tt, mkPage (texts p) (lists p) (S (actions p)) (timers p))
    end;
  elapse _ p := mkPage (texts p) (lists p) (actions p) (S (timers p))
}.

Definition start (p : Page) : Session Page := mkSession p [].

End Scripted.

(** ** Sample pages *)

Module Samples.
Import Scripted.

Definition backpack : string := "Sauce Labs Backpack".
Definition bikeLight : string := "Sauce Labs Bike Light".
Definition boltTShirt : string := "Sauce Labs Bolt T-Shirt".

(** A cart (or overview) screen listing two items, with the white space
    the markup leaves around the names. *)
Definition two_items : Page :=
  mkPage []
         [(Css ".inventory_item_name",
           [" Sauce Labs Bike Light"; "Sauce Labs Backpack "])]
         0 0.

(** An inventory screen whose cart badge shows a text that is no number. *)
Definition badge_abc : Page :=
  mkPage [(InventoryPage.cartBadge, Some "abc")] [] 0 0.

(** An inventory screen whose cart badge shows 3. *)
Definition badge_3 : Page :=
  mkPage [(InventoryPage.cartBadge, Some "3")] [] 0 0.

(** An inventory screen without a cart badge. *)
Definition no_badge : Page := mkPage [] [] 0 0.

(** A completion screen whose body has the first expected sentence only. *)
Definition dispatched_only : Page :=
  mkPage [(CheckoutCompletePage.completeHeader,
           Some "Thank you for your order!");
          (CheckoutCompletePage.completeText,
           Some "Your order has been dispatched.")] [] 0 0.

(** The completion screen of the shop. *)
Definition order_complete : Page :=
  mkPage [(CheckoutCompletePage.completeHeader,
           Some "Thank you for your order!");
          (CheckoutCompletePage.completeText,
           Some "Your order has been dispatched, and will arrive just as fast as the pony can get there!")]
         [] 0 0.

(** A login or checkout screen showing an error banner. *)
Definition with_banner : Page :=
  mkPage [(Css (dataTest "error"), Some "Epic sadface: Username is required")]
         [] 0 0.

(** A cart with three rows; the second and third are both bike lights. *)
Definition three_rows : Page :=
  mkPage [(Sub (Nth CartPage.cartItems 0) ".inventory_item_name",
           Some "Sauce Labs Backpack");
          (Sub (Nth CartPage.cartItems 1) ".inventory_item_name",
           Some " Sauce Labs Bike Light ");
          (Sub (Nth CartPage.cartItems 2) ".inventory_item_name",
           Some "Sauce Labs Bike Light")]
         [] 0 0.

(** An action that fails until two timers have expired, then returns 7. *)
Definition flaky : M Page nat :=
  fun s =>
    if timers (browser s) <? 2
    then (Throw (TimeoutError "locator.waitFor: Timeout exceeded"), s)
    else (Ok 7, s).

(** An action that always fails. *)
Definition hopeless : M Page nat :=
  fun s => (Throw (Error "element is not attached"), s).

End Samples.

(** The decimal numeral of a natural number, as the page prints a count. *)
Definition numeral (n : nat) : string :=
  NilEmpty.string_of_uint (Nat.to_uint n).

(** ** Reading [addItemsToCart] as a table

    The control that the [switch] of [addItemsToCart] clicks for an item name,
    if any, and the controls of a list of names. *)

Definition control_of (item : string) : option Locator :=
  let key := Js.toLowerCase item in
  if String.eqb key "sauce labs backpack" then Some InventoryPage.sauceLabsBackpack
  else if String.eqb key "sauce labs bike light" then Some InventoryPage.sauceLabsBikeLight
  else if String.eqb key "sauce labs bolt t-shirt" then Some InventoryPage.sauceLabsBoltTShirt
  else None.

Definition recognized (item : string) : Prop := control_of item <> None.

Definition controls (items : list string) : list Locator :=
  flat_map (fun item => match control_of item with
                        | Some l => [l]
                        | None => []
                        end) items.

Definition clicked (ls : list Locator) : list Event :=
  map (fun l => Did (Click l)) ls.

(** Two names are casing variants of one another when they differ in the case
    of their letters only. *)
Definition casing_variant (a b : string) : Prop :=
  Js.toLowerCase a = Js.toLowerCase b.

(** ** Statements about the optional error banner and the combined forms *)

Section Statements.
Context {B : Type} `{Driver B}.

(** What it means for a query [m] of the banner at [l] to report absence as
    null: it sends one bounded wait, never rejects, answers the text of the
    banner when the wait and the read succeed, and null when either
    rejects. *)
Definition reports_absence_as_null (m : M B (option string)) (l : Locator)
           (s : Session B) : Prop :=
  let w := perform (WaitFor l 5000) (browser s) in
  let s' := mkSession (snd w) (trace s ++ [Did (WaitFor l 5000)]) in
  (exists v, m s = (Ok v, s'))
  /\ (forall e, fst w = Throw e -> m s = (Ok None, s'))
  /\ (forall t, fst w = Ok tt -> textContent_of (snd w) l = Ok t ->
                m s = (Ok t, s'))
  /\ (forall e, fst w = Ok tt -> textContent_of (snd w) l = Throw e ->
                m s = (Ok None, s')).

(** The caller's own sequence [await a(); await b(); await c();]: each call
    starts in the session the previous one left, and a rejection ends the
    sequence. *)
Definition three_calls (a b c : M B unit) : M B unit :=
  fun s =>
    match a s with
    | (Throw e, s1) => (Throw e, s1)
    | (Ok _, s1) =>
        match b s1 with
        | (Throw e, s2) => (Throw e, s2)
        | (Ok _, s2) => c s2
        end
    end.

(** The cart rows on screen, the outcome of reading the name of a row, and
    whether a row carries the given name. *)
Definition cart_rows (b : B) : list Locator :=
  map (Nth CartPage.cartItems) (seq 0 (count_of b CartPage.cartItems)).

Definition row_name (b : B) (row : Locator) : outcome (option string) :=
  textContent_of b (Sub row ".inventory_item_name").

Definition row_matches (b : B) (itemName : string) (row : Locator) : bool :=
  match row_name b row with
  | Ok name => CartPage.name_matches name itemName
  | Throw _ => false
  end.

Definition remove_button (row : Locator) : Locator :=
  Sub row (dataTestPrefix "remove-").

End Statements.

(** ** Statements about the retry helper *)

Section Backoff.
Context {B : Type} `{Driver B} {T : Type}.

(** The session in which attempt number [first + k] starts, when attempt
    number [first] starts in [s] and the attempts before [first + k] all
    fail: each failed attempt [j] is followed by a wait of
    [baseDelay * 2^j] milliseconds. *)
Fixpoint session_before_attempt (fn : M B T) (baseDelay first : Z)
         (s : Session B) (k : nat) : Session B :=
  match k with
  | O => s
  | S k' =>
      snd (sleep (baseDelay * 2 ^ (first + Z.of_nat k'))
             (snd (invoke fn (session_before_attempt fn baseDelay first s k'))))
  end.

End Backoff.

(** What the helper itself leaves in the trace when the last attempt is
    attempt number [k]: [k + 1] calls, with a wait of [baseDelay * 2^j]
    after call number [j] for every [j < k]. *)
Definition backoff_events (baseDelay : Z) (k : nat) : list Event :=
  flat_map (fun j => [Invoked; Slept (baseDelay * 2 ^ Z.of_nat j)]) (seq 0 k)
  ++ [Invoked].

(** ** The rest of the page objects

    The methods below are those the scenarios call next to the ones above.
    The address of the page is a further query of the browser. *)

Class PageQueries (B : Type) : Type := {
  url_of : B -> string
}.

(** [page.url()] behind [getCurrentUrl]. *)
Definition getCurrentUrl {B : Type} `{PageQueries B} : M B string :=
  fun s => (Ok (url_of (browser s)), s).

(** [currentUrl.includes(path)], the body shared by [isLoggedIn] and the
    [isOn...Page] methods. *)
Definition url_includes {B : Type} `{PageQueries B} (path : string) : M B bool :=
  currentUrl <- getCurrentUrl ;;
  ret (Js.includes currentUrl path).

Module LoginPage_rest.
Definition isLoggedIn {B : Type} `{PageQueries B} : M B bool :=
  url_includes "/inventory.html".
End LoginPage_rest.

Module InventoryPage_rest.

Definition sauceLabsFleeceJacket : Locator :=
  Css (dataTest "add-to-cart-sauce-labs-fleece-jacket").
Definition sauceLabsOnesie : Locator :=
  Css (dataTest "add-to-cart-sauce-labs-onesie").
Definition testAllTheThingsTShirt : Locator :=
  Css (dataTest "add-to-cart-test.allthethings()-t-shirt-(red)").

Definition isOnInventoryPage {B : Type} `{PageQueries B} : M B bool :=
  url_includes "/inventory.html".
End InventoryPage_rest.

Module CartPage_rest.

Definition isOnCartPage {B : Type} `{PageQueries B} : M B bool :=
  url_includes "/cart.html".

Section Methods.
Context {B : Type} `{Driver B}.

(** [this.cartItems.count()] *)
Definition getCartItemCount : M B nat :=
  fun s => (Ok (count_of (browser s) CartPage.cartItems), s).

Definition isCartEmpty : M B bool :=
  itemCount <- getCartItemCount ;;
  ret (itemCount =? 0).

End Methods.
End CartPage_rest.

Module CheckoutPage_rest.

Definition continueButton : Locator := Css (dataTest "continue").

Definition isOnCheckoutPage {B : Type} `{PageQueries B} : M B bool :=
  url_includes "/checkout-step-one.html".

Section Methods.
Context {B : Type} `{Driver B}.

Definition clickContinueButton : M B unit := click continueButton.

Definition completeCheckoutInformation (firstName lastName postalCode : string)
  : M B unit :=
  CheckoutPage.fillCheckoutInformation firstName lastName postalCode ;;
  clickContinueButton.

End Methods.
End CheckoutPage_rest.

Module CheckoutOverviewPage_rest.
Definition isOnCheckoutOverviewPage {B : Type} `{PageQueries B} : M B bool :=
  url_includes "/checkout-step-two.html".
End CheckoutOverviewPage_rest.

Module CheckoutCompletePage_rest.

Definition backHomeButton : Locator := Css (dataTest "back-to-products").

Definition isOnCheckoutCompletePage {B : Type} `{PageQueries B} : M B bool :=
  url_includes "/checkout-complete.html".

Section Methods.
Context {B : Type} `{Driver B}.

Definition clickBackHomeButton : M B unit := click backHomeButton.

Definition verifyThankYouMessage : M B bool :=
  headerText <- CheckoutCompletePage.getCompleteHeaderText ;;
  ret (String.eqb headerText "Thank you for your order!").

Definition completeOrderAndReturnToInventory : M B bool :=
  isComplete <- CheckoutCompletePage.verifyCheckoutCompletion ;;
  if negb isComplete then ret false
  else (clickBackHomeButton ;; ret true).

End Methods.
End CheckoutCompletePage_rest.

Module TestHelpers_rest.

Section Methods.
Context {B : Type} `{Driver B}.

(** [handleFlakyElement(page, selector, action)].  The [waitFor] of the
    wrapped function names no timeout: the configured default applies, here
    [defaultTimeout].  The retry runs with its default arguments, 3 and
    1000. *)
Definition handleFlakyElement (defaultTimeout : Z) (selector : string)
           (action : Locator -> M B unit) : M B unit :=
  TestHelpers.retryWithBackoff
    (let element := Css selector in
     waitFor element defaultTimeout ;;
     action element)
    3 1000.

End Methods.

Definition chars : string :=
  "ABCDEFGHIJKLMNOPQRSTUVWXYZabcdefghijklmnopqrstuvwxyz0123456789".

(** [s.charAt(i)]: the empty string when [i] is out of range. *)
Definition charAt (s : string) (i : nat) : string :=
  match String.get i s with
  | Some c => String c EmptyString
  | None => EmptyString
  end.

(** The loop of [generateRandomString], [todo] passes from pass number [i].
    [draws j] is the integer [Math.floor(Math.random() * chars.length)] of
    pass number [j]. *)
Fixpoint generateRandomString_loop (draws : nat -> nat) (todo i : nat)
         (result : string) : string :=
  match todo with
  | O => result
  | S todo' =>
      generateRandomString_loop draws todo' (S i)
        (result ++ charAt chars (draws i))
  end.

(** The [length] argument, a JavaScript number: a finite number (every
    double is a rational), NaN or an infinity. *)
Inductive length_arg : Type :=
| Finite (q : QArith_base.Q)
| NotANumber
| PlusInfinity
| MinusInfinity.

(** The longest string of the language: 2^53 - 1 elements. *)
Definition maxStringLength : Z := (2 ^ 53 - 1)%Z.

(** The number of passes of [for (let i = 0; i < length; i++)]: the counter
    takes the values 0, 1, 2, ... and the test [i < length] holds for the
    natural numbers below [length], of which there are [ceil(length)] when
    [length] is positive and none otherwise (none either for NaN, with which
    every comparison is false).  Each pass adds a character, so beyond
    [maxStringLength] passes, and for an infinite [length], no string is
    returned: [None]. *)
Definition passes (length : length_arg) : option nat :=
  match length with
  | Finite q =>
      if QArith_base.Qle_bool q (QArith_base.inject_Z maxStringLength)
      then Some (Z.to_nat (Qround.Qceiling q))
      else None
  | NotANumber => Some 0
  | MinusInfinity => Some 0
  | PlusInfinity => None
  end.

Definition generateRandomString (draws : nat -> nat) (length : length_arg)
  : option string :=
  match passes length with
  | Some todo => Some (generateRandomString_loop draws todo 0 "")
  | None => None
  end.

End TestHelpers_rest.

(** ** Statements about the rest *)

(** A string that does not begin, or does not end, with white space. *)
Definition no_leading_space (s : string) : Prop :=
  match s with
  | EmptyString => True
  | String c _ => Js.isWhiteSpace c = false
  end.

Fixpoint last_char (s : string) : option ascii :=
  match s with
  | EmptyString => None
  | String c EmptyString => Some c
  | String _ r => last_char r
  end.

Definition no_trailing_space (s : string) : Prop :=
  match last_char s with
  | None => True
  | Some c => Js.isWhiteSpace c = false
  end.

(** The timers and the calls of wrapped functions recorded in a trace. *)
Definition timers_of (t : list Event) : list Z :=
  flat_map (fun ev => match ev with Slept ms => [ms] | _ => [] end) t.

Definition calls_of (t : list Event) : nat :=
  length (filter (fun ev => match ev with Invoked => true | _ => false end) t).

(** The waits of a run whose last attempt is attempt number [k]. *)
Definition backoff_delays (baseDelay : Z) (k : nat) : list Z :=
  map (fun j => (baseDelay * 2 ^ Z.of_nat j)%Z) (seq 0 k).

Definition sumZ (l : list Z) : Z := fold_right Z.add 0%Z l.

(** The letters and digits that [generateRandomString] draws from. *)
Definition alphanumeric (c : ascii) : bool :=
  let n := nat_of_ascii c in
  ((65 <=? n) && (n <=? 90)) || ((97 <=? n) && (n <=? 122))
  || ((48 <=? n) && (n <=? 57)).

Fixpoint string_forall (p : ascii -> bool) (s : string) : bool :=
  match s with
  | EmptyString => true
  | String c r => p c && string_forall p r
  end.

(** A browser that is nothing but the address it shows. *)
#[global] Instance address_bar : PageQueries string := {
  url_of u := u
}.

(** The commands of [CheckoutPage.fillCheckoutInformation], in the order in
    which the three field methods send them. *)
Definition form_commands (firstName lastName postalCode : string) : list Action :=
  [Clear CheckoutPage.firstNameInput; Fill CheckoutPage.firstNameInput firstName;
   Clear CheckoutPage.lastNameInput; Fill CheckoutPage.lastNameInput lastName;
   Clear CheckoutPage.postalCodeInput; Fill CheckoutPage.postalCodeInput postalCode].

Module Samples_rest.

(** An inventory screen whose cart badge shows a count followed by a word. *)
Definition badge_3_items : Scripted.Page :=
  Scripted.mkPage [(InventoryPage.cartBadge, Some "3 items")] [] 0 0.

(** The draws 0, 26, 52, 0, 26, 52, ... *)
Definition every_26th (i : nat) : nat := 26 * (i mod 3).

End Samples_rest.

(** ** Names that differ in the case of their letters only

    Stated without [toLowerCase]: the two names have the same length and, at
    every position, the same character or a capital letter (A..Z or a Latin-1
    capital) on one side and its small letter, 32 code units further, on the
    other. *)

Definition isCapital (c : ascii) : bool :=
  let n := nat_of_ascii c in
  ((65 <=? n) && (n <=? 90))
  || ((192 <=? n) && (n <=? 222) && negb (n =? 215)).

Definition same_letter (a b : ascii) : bool :=
  Ascii.eqb a b
  || (isCapital a && (nat_of_ascii b =? nat_of_ascii a + 32))
  || (isCapital b && (nat_of_ascii a =? nat_of_ascii b + 32)).

Fixpoint differs_in_case_only (a b : string) : bool :=
  match a, b with
  | EmptyString, EmptyString => true
  | String x r, String y t => same_letter x y && differs_in_case_only r t
  | _, _ => false
  end.

(** The page after a list of commands has been sent to it, one after the
    other, whatever their outcomes. *)
Fixpoint browser_after {B : Type} `{Driver B} (acts : list Action) (b : B) : B :=
  match acts with
  | [] => b
  | a :: r => browser_after r (snd (perform a b))
  end.

(** What it means for a run [run], started in [s], to send the commands
    [cmds] in order and to stop at the first one that the page rejects:
    either every command was performed successfully, each on the page its
    predecessors left, and the run succeeds having sent them all; or some
    command number [j] is the first to be rejected, the run rejects with its
    error, and the commands sent are those up to and including number [j]. *)
Definition stops_at_first_rejection {B : Type} `{Driver B}
           (cmds : list Action) (s : Session B)
           (run : outcome unit * Session B) : Prop :=
  (run = (Ok tt, mkSession (browser_after cmds (browser s))
                           (trace s ++ map Did cmds))
   /\ forall j a, nth_error cmds j = Some a ->
        fst (perform a (browser_after (firstn j cmds) (browser s))) = Ok tt)
  \/ exists j a e,
      nth_error cmds j = Some a
      /\ (forall i a', i < j -> nth_error cmds i = Some a' ->
            fst (perform a' (browser_after (firstn i cmds) (browser s))) = Ok tt)
      /\ fst (perform a (browser_after (firstn j cmds) (browser s))) = Throw e
      /\ run = (Throw e,
                mkSession (browser_after (firstn (S j) cmds) (browser s))
                          (trace s ++ map Did (firstn (S j) cmds))).

(** ** JavaScript numbers read from text: [parseFloat]

    A JavaScript number is a binary64 floating-point number, here a
    primitive [float] with its IEEE 754 operations.  [parseFloat] reads the
    longest prefix of the text that is a decimal literal and returns the
    double nearest to its value (ties to even). *)

Module JsNumber.

(** What [parseFloat] recognizes at the start of a text: nothing, an infinity,
    or the decimal [mantissa * 10 ^ exponent] with its sign. *)
Inductive literal : Type :=
| LitNaN
| LitInfinity (negative : bool)
| LitDecimal (negative : bool) (mantissa : Z) (exponent : Z).

Fixpoint take_digits (s : string) : list Z * string :=
  match s with
  | EmptyString => ([], EmptyString)
  | String c r =>
      match Js.digitValue c with
      | Some d => let '(ds, rest) := take_digits r in (d :: ds, rest)
      | None => ([], s)
      end
  end.

Definition digits_value (ds : list Z) : Z :=
  fold_left (fun a d => (a * 10 + d)%Z) ds 0%Z.

Definition sign_of (s : string) : bool * string :=
  match s with
  | String "-" r => (true, r)
  | String "+" r => (false, r)
  | _ => (false, s)
  end.

(** The exponent part, an e or E with an optional sign and at least one
    digit; without a digit there is no exponent part. *)
Definition exponent_part (s : string) : Z :=
  match s with
  | String c r =>
      if (Ascii.eqb c "e" || Ascii.eqb c "E")%bool then
        let '(negative, r1) := sign_of r in
        let '(ds, _) := take_digits r1 in
        match ds with
        | [] => 0%Z
        | _ => if negative then (- digits_value ds)%Z else digits_value ds
        end
      else 0%Z
  | EmptyString => 0%Z
  end.

(** The longest prefix, after leading white space, of the form
    sign? (Infinity | digits (. digits? )? exponent? | . digits exponent?). *)
Definition parse_literal (s : string) : literal :=
  let '(negative, s1) := sign_of (Js.trimStart s) in
  if String.prefix "Infinity" s1 then LitInfinity negative
  else
    let '(ip, s2) := take_digits s1 in
    let '(fp, s3) :=
      match s2 with
      | String "." r => take_digits r
      | _ => ([], s2)
      end in
    match ip ++ fp with
    | [] => LitNaN
    | ds =>
        LitDecimal negative (digits_value ds)
                   (exponent_part s3 - Z.of_nat (length fp))
    end.

(** The double nearest to [mantissa * 10 ^ exponent]: the correctly rounded
    quotient of two integers. *)
Definition nearest_double (negative : bool) (mantissa exponent : Z)
  : PrimFloat.float :=
  match mantissa with
  | Zpos m =>
      FloatOps.SF2Prim
        (SpecFloat.SFdiv FloatOps.prec FloatOps.emax
           (SpecFloat.S754_finite negative
              (m * Z.to_pos (10 ^ Z.max exponent 0))%positive 0)
           (SpecFloat.S754_finite false
              (Z.to_pos (10 ^ Z.max (- exponent) 0)) 0))
  | _ => if negative then PrimFloat.neg_zero else PrimFloat.zero
  end.

Definition to_double (l : literal) : PrimFloat.float :=
  match l with
  | LitNaN => PrimFloat.nan
  | LitInfinity negative =>
      if negative then PrimFloat.neg_infinity else PrimFloat.infinity
  | LitDecimal negative m e => nearest_double negative m e
  end.

Definition parseFloat (s : string) : PrimFloat.float :=
  to_double (parse_literal s).

(** The number that the text denotes exactly, when it denotes a finite
    one. *)
Definition exact_value (s : string) : option QArith_base.Q :=
  match parse_literal s with
  | LitDecimal negative m e =>
      let magnitude :=
        QArith_base.Qmake (m * 10 ^ Z.max e 0) (Z.to_pos (10 ^ Z.max (- e) 0)) in
      Some (if negative then QArith_base.Qopp magnitude else magnitude)
  | _ => None
  end.

(** [s.replace('$', '')]: the first dollar sign is removed. *)
Fixpoint remove_first_dollar (s : string) : string :=
  match s with
  | EmptyString => EmptyString
  | String c r => if Ascii.eqb c "$" then r else String c (remove_first_dollar r)
  end.

(** [s.replace(/[^0-9.]/g, '')]: only digits and dots are kept. *)
Fixpoint keep_digits_and_dots (s : string) : string :=
  match s with
  | EmptyString => EmptyString
  | String c r =>
      match Js.digitValue c with
      | Some _ => String c (keep_digits_and_dots r)
      | None =>
          if Ascii.eqb c "." then String c (keep_digits_and_dots r)
          else keep_digits_and_dots r
      end
  end.

End JsNumber.

(** [expect(received).toBeLessThan(expected)] on numbers. *)
Definition expect_toBeLessThan {B} (received expected : PrimFloat.float)
  : M B unit :=
  if PrimFloat.ltb received expected then ret tt
  else throw (ToBeLessThanFailed received expected).

Module CheckoutOverviewPage_totals.

Definition cartItemPrices : Locator := Css ".inventory_item_price".
Definition totalLabel : Locator := Css ".summary_total_label".

(** The number literal [0.01]. *)
Definition tolerance : PrimFloat.float := JsNumber.nearest_double false 1 (-2).

(** The loop of [calculateTotalFromItems] over the prices read. *)
Definition sum_of_prices (prices : list string) : PrimFloat.float :=
  fold_left
    (fun total price =>
       let numericPrice := JsNumber.parseFloat (JsNumber.remove_first_dollar price) in
       PrimFloat.add total numericPrice)
    prices PrimFloat.zero.

Section Methods.
Context {B : Type} `{Driver B}.

Definition getCartItemPrices : M B (list string) :=
  prices <- allTextContents cartItemPrices ;;
  ret (map Js.trim prices).

Definition getTotal : M B string :=
  totalText <- textContent totalLabel ;;
  ret (if_truthy totalText Js.trim "").

Definition calculateTotalFromItems : M B PrimFloat.float :=
  prices <- getCartItemPrices ;;
  ret (sum_of_prices prices).

Definition verifyTotalCalculation : M B unit :=
  calculatedTotal <- calculateTotalFromItems ;;
  displayedTotal <- getTotal ;;
  let totalAmount :=
    JsNumber.parseFloat (JsNumber.keep_digits_and_dots displayedTotal) in
  expect_toBeLessThan
    (PrimFloat.abs (PrimFloat.sub calculatedTotal totalAmount)) tolerance.

End Methods.
End CheckoutOverviewPage_totals.

(** The exact-number reading of the total check: every price and the total
    denote finite numbers, and the absolute difference between the sum of the
    prices and the total is below one hundredth. *)
Fixpoint exact_sum (prices : list string) : option QArith_base.Q :=
  match prices with
  | [] => Some (QArith_base.inject_Z 0)
  | p :: r =>
      match JsNumber.exact_value (JsNumber.remove_first_dollar p), exact_sum r with
      | Some x, Some y => Some (QArith_base.Qplus x y)
      | _, _ => None
      end
  end.

Definition exactly_within_a_cent (prices : list string) (total : string) : Prop :=
  exists sum amount,
    exact_sum prices = Some sum
    /\ JsNumber.exact_value (JsNumber.keep_digits_and_dots total) = Some amount
    /\ QArith_base.Qlt (Qabs.Qabs (QArith_base.Qminus sum amount))
                       (QArith_base.Qmake 1 100).

Module Samples_totals.

Definition overview (prices : list string) (total : string) : Scripted.Page :=
  Scripted.mkPage
    [(CheckoutOverviewPage_totals.totalLabel, Some total)]
    [(CheckoutOverviewPage_totals.cartItemPrices, prices)] 0 0.

(** Three cents against two. *)
Definition three_against_two : Scripted.Page := overview ["$0.03"] "Total: $0.02".

(** The three items of the scenario, against their sum and against the total
    that the shop shows, tax included. *)
Definition items_total : Scripted.Page :=
  overview ["$29.99"; "$9.99"; "$15.99"] "Item total: $55.97".
Definition shop_total : Scripted.Page :=
  overview ["$29.99"; "$9.99"; "$15.99"] "Total: $60.45".

End Samples_totals.

(** * Properties *)

(** ** Samples of the string functions *)

Example trim_sample : Js.trim "  Sauce Labs Backpack " = "Sauce Labs Backpack".
Proof. reflexivity. Qed.

Example parseInt_samples :
  Js.parseInt "3" = Js.Num 3%Z /\ Js.parseInt " 12px" = Js.Num 12%Z /\
  Js.parseInt "-7" = Js.Num (-7)%Z /\ Js.parseInt "0x1F" = Js.Num 31%Z /\
  Js.parseInt "abc" = Js.NaN /\ Js.parseInt "" = Js.NaN.
Proof. repeat split. Qed.

Example includes_samples :
  Js.includes "Your order has been dispatched, and will arrive" "dispatched" = true
  /\ Js.includes "abc" "" = true /\ Js.includes "abc" "bd" = false.
Proof. repeat split. Qed.

(** ** Item verification on the cart and overview screens *)

Lemma contains_In (l : list string) (x : string) :
  Js.contains l x = true <-> In x l.
Proof.
  induction l as [|y r IH]; simpl.
  - split; [discriminate | contradiction].
  - rewrite orb_true_iff, String.eqb_eq, IH. tauto.
Qed.

Section ItemChecks.
Context {B : Type}.

(** The loop of [toContain] checks passes exactly when every expected name
    is among the received ones; otherwise it stops at the first expected name
    that is missing, with the error that names it.  It never touches the
    session. *)
Lemma for_of_toContain (actual expected : list string) (s : Session B) :
  for_of expected (fun e => expect_toContain actual e) s =
  match first_missing actual expected with
  | None => (Ok tt, s)
  | Some e => (Throw (ToContainFailed actual e), s)
  end.
Proof.
  induction expected as [|e r IH]; simpl; [reflexivity|].
  unfold bind, expect_toContain at 1.
  destruct (Js.contains actual e); simpl; [exact IH | reflexivity].
Qed.

Lemma first_missing_None (actual expected : list string) :
  first_missing actual expected = None <->
  forallb (Js.contains actual) expected = true.
Proof.
  induction expected as [|e r IH]; simpl; [tauto|].
  destruct (Js.contains actual e); simpl; [exact IH|].
  split; discriminate.
Qed.

Lemma items_check_run (actual expected : list string) (s : Session B) :
  items_check actual expected s =
  (match first_missing actual expected with
   | None =>
       if length actual =? length expected
       then Ok tt else Throw (ToBeFailed (length actual) (length expected))
   | Some e => Throw (ToContainFailed actual e)
   end, s).
Proof.
  unfold items_check, bind. rewrite for_of_toContain.
  destruct (first_missing actual expected); [reflexivity|].
  unfold expect_toBe.
  destruct (length actual =? length expected); reflexivity.
Qed.

Lemma items_check_ok (actual expected : list string) (s : Session B) :
  fst (items_check actual expected s) = Ok tt <->
  incl expected actual /\ length actual = length expected.
Proof.
  rewrite items_check_run. simpl.
  destruct (first_missing actual expected) as [m|] eqn:M.
  - split; [discriminate|]. intros [I _].
    assert (forallb (Js.contains actual) expected = true) as E'.
    { apply forallb_forall. intros x Hx. apply contains_In, I, Hx. }
    apply first_missing_None in E'. congruence.
  - apply first_missing_None in M. rewrite forallb_forall in M.
    destruct (Nat.eqb_spec (length actual) (length expected)) as [L|L].
    + split; [intros _|reflexivity]. split; [|exact L].
      intros x Hx. apply contains_In, M, Hx.
    + split; [discriminate|]. intros [_ L']. contradiction.
Qed.

Lemma distinct_check_iff_permutation (actual expected : list string) :
  NoDup expected ->
  (incl expected actual /\ length actual = length expected) <->
  Permutation expected actual.
Proof.
  intros ND. split.
  - intros [I L]. apply NoDup_Permutation_bis; [exact ND | lia | exact I].
  - intros P. split.
    + intros x Hx. eapply Permutation_in; eassumption.
    + symmetry. apply Permutation_length, P.
Qed.

End ItemChecks.

(** C1. For pairwise distinct expected names, [CartPage.verifyCartItems] and
    [CheckoutOverviewPage.verifyOrderItems] succeed if and only if the names
    read from the screen (the trimmed texts of the name elements) are a
    permutation of the expected names. *)
Theorem verifyItems_iff_permutation
        {B : Type} `{Driver B} (expectedItems : list string) (s : Session B) :
  NoDup expectedItems ->
  (fst (CartPage.verifyCartItems expectedItems s) = Ok tt <->
   Permutation expectedItems
     (map Js.trim (allTextContents_of (browser s) CartPage.cartItemNames)))
  /\
  (fst (CheckoutOverviewPage.verifyOrderItems expectedItems s) = Ok tt <->
   Permutation expectedItems
     (map Js.trim
        (allTextContents_of (browser s) CheckoutOverviewPage.cartItemNames))).
Proof.
  intros ND. split.
  - rewrite <- (distinct_check_iff_permutation _ _ ND), <- (items_check_ok _ _ s).
    reflexivity.
  - rewrite <- (distinct_check_iff_permutation _ _ ND), <- (items_check_ok _ _ s).
    reflexivity.
Qed.

Lemma verifyItems_iff_permutation_witness :
  NoDup [Samples.backpack; Samples.bikeLight] /\
  fst (CartPage.verifyCartItems [Samples.backpack; Samples.bikeLight]
         (Scripted.start Samples.two_items)) = Ok tt.
Proof.
  assert (NoDup [Samples.backpack; Samples.bikeLight]) as ND.
  { repeat constructor; simpl; intuition discriminate. }
  split; [exact ND|].
  apply (proj1 (verifyItems_iff_permutation
                  [Samples.backpack; Samples.bikeLight]
                  (Scripted.start Samples.two_items) ND)).
  apply perm_swap.
Defined.

(** ** Actions and their trace *)

Section Traces.
Context {B : Type} `{Driver B}.

Lemma bind_run {A C} (m : M B A) (k : A -> M B C) (s : Session B) :
  bind m k s =
  match m s with
  | (Ok a, s') => k a s'
  | (Throw e, s') => (Throw e, s')
  end.
Proof. reflexivity. Qed.

Lemma bind_assoc_run {A C D} (m : M B A) (k : A -> M B C) (h : C -> M B D)
      (s : Session B) :
  bind (bind m k) h s = bind m (fun a => bind (k a) h) s.
Proof. unfold bind. destruct (m s) as [[a|e] s1]; reflexivity. Qed.

Lemma act_run (a : Action) (s : Session B) :
  act a s = (fst (perform a (browser s)),
             mkSession (snd (perform a (browser s))) (trace s ++ [Did a])).
Proof. unfold act. destruct (perform a (browser s)); reflexivity. Qed.

Lemma for_of_cons_run {A} (x : A) (r : list A) (body : A -> M B unit)
      (s : Session B) :
  for_of (x :: r) body s =
  match body x s with
  | (Ok _, s') => for_of r body s'
  | (Throw e, s') => (Throw e, s')
  end.
Proof. reflexivity. Qed.

(** A run of clicks sends the clicks in order and stops at the first one
    that the driver rejects. *)
Lemma for_of_click_trace (ls : list Locator) (s : Session B) :
  exists k, k <= length ls /\
    trace (snd (for_of ls click s)) = trace s ++ clicked (firstn k ls) /\
    (fst (for_of ls click s) = Ok tt -> k = length ls).
Proof.
  revert s. induction ls as [|l r IH]; intros s.
  - exists 0. simpl. rewrite app_nil_r. auto.
  - rewrite for_of_cons_run.
    change (click l s) with (act (Click l) s). rewrite act_run.
    destruct (fst (perform (Click l) (browser s))) as [[]|e].
    + destruct (IH (mkSession (snd (perform (Click l) (browser s)))
                              (trace s ++ [Did (Click l)])))
        as (k & Hk & Ht & Hok).
      exists (S k). simpl in *. rewrite Ht, <- app_assoc. simpl.
      split; [lia|]. split; [reflexivity|]. intros E. f_equal. exact (Hok E).
    + exists 1. simpl. repeat split; [lia | discriminate].
Qed.

Lemma switch_recognized (item : string) (l : Locator) :
  control_of item = Some l -> InventoryPage.addItemsToCart_switch item = click l.
Proof.
  unfold control_of, InventoryPage.addItemsToCart_switch.
  repeat (destruct (String.eqb _ _); [intros [= <-]; reflexivity|]).
  discriminate.
Qed.

Lemma switch_unrecognized (item : string) :
  control_of item = None ->
  InventoryPage.addItemsToCart_switch item =
  throw (Error ("Unknown item: " ++ item)).
Proof.
  unfold control_of, InventoryPage.addItemsToCart_switch.
  repeat (destruct (String.eqb _ _); [discriminate|]).
  reflexivity.
Qed.

Lemma addItemsToCart_cons_recognized (item : string) (l : Locator)
      (rest : list string) (s : Session B) :
  control_of item = Some l ->
  InventoryPage.addItemsToCart (item :: rest) s =
  (click l ;; InventoryPage.addItemsToCart rest) s.
Proof.
  intros E. unfold InventoryPage.addItemsToCart. simpl.
  rewrite (switch_recognized _ _ E). reflexivity.
Qed.

Lemma addItemsToCart_cons_unrecognized (item : string)
      (rest : list string) (s : Session B) :
  control_of item = None ->
  InventoryPage.addItemsToCart (item :: rest) s =
  (Throw (Error ("Unknown item: " ++ item)), s).
Proof.
  intros E. unfold InventoryPage.addItemsToCart. simpl.
  rewrite (switch_unrecognized _ E). reflexivity.
Qed.

(** Recognized names first, then anything: the clicks of the recognized
    names are sent, then the rest of the list is handled. *)
Lemma addItemsToCart_app (pre rest : list string) (s : Session B) :
  Forall recognized pre ->
  InventoryPage.addItemsToCart (pre ++ rest) s =
  (for_of (controls pre) click ;; InventoryPage.addItemsToCart rest) s.
Proof.
  intros F. revert s. induction F as [|item pre R F IH]; intros s.
  - reflexivity.
  - unfold recognized in R. destruct (control_of item) as [l|] eqn:E;
      [clear R | contradiction].
    simpl List.app. rewrite (addItemsToCart_cons_recognized _ _ _ _ E).
    unfold controls. simpl flat_map. rewrite E. simpl List.app.
    fold (controls pre).
    change (for_of (l :: controls pre) click)
      with (click l ;; for_of (controls pre) click).
    rewrite bind_assoc_run, !(bind_run (click l)).
    destruct (click l s) as [[[]|e] s1]; [apply IH | reflexivity].
Qed.

End Traces.

(** ** Adding items to the cart *)

Section AddItems.
Context {B : Type} `{Driver B}.

Lemma controls_recognized (pre : list string) :
  Forall recognized pre ->
  Forall2 (fun item l => control_of item = Some l) pre (controls pre).
Proof.
  induction 1 as [|item pre R F IH]; [constructor|].
  unfold recognized in R. unfold controls. simpl.
  destruct (control_of item) as [l|] eqn:E; [|contradiction].
  simpl. constructor; assumption.
Qed.

(** Whatever the list, the trace only grows. *)
Lemma addItemsToCart_trace_grows (items : list string) (s : Session B) :
  exists t, trace (snd (InventoryPage.addItemsToCart items s)) = trace s ++ t.
Proof.
  revert s. induction items as [|item rest IH]; intros s.
  - exists []. simpl. now rewrite app_nil_r.
  - destruct (control_of item) as [l|] eqn:E.
    + rewrite (addItemsToCart_cons_recognized _ _ _ _ E), bind_run.
      change (click l s) with (act (Click l) s). rewrite act_run.
      destruct (fst (perform (Click l) (browser s))) as [[]|e].
      * destruct (IH (mkSession (snd (perform (Click l) (browser s)))
                                (trace s ++ [Did (Click l)]))) as [t Ht].
        exists (Did (Click l) :: t). rewrite Ht. simpl.
        now rewrite <- app_assoc.
      * exists [Did (Click l)]. reflexivity.
    + rewrite (addItemsToCart_cons_unrecognized _ _ _ E).
      exists []. simpl. now rewrite app_nil_r.
Qed.

(** A recognized first name leaves its click in the trace. *)
Lemma addItemsToCart_recognized_clicks (item : string) (l : Locator)
      (rest : list string) (s : Session B) :
  control_of item = Some l ->
  exists t, trace (snd (InventoryPage.addItemsToCart (item :: rest) s)) =
            trace s ++ Did (Click l) :: t.
Proof.
  intros E. rewrite (addItemsToCart_cons_recognized _ _ _ _ E), bind_run.
  change (click l s) with (act (Click l) s). rewrite act_run.
  destruct (fst (perform (Click l) (browser s))) as [[]|e].
  - destruct (addItemsToCart_trace_grows rest
                (mkSession (snd (perform (Click l) (browser s)))
                           (trace s ++ [Did (Click l)]))) as [t Ht].
    exists t. rewrite Ht. simpl. now rewrite <- app_assoc.
  - exists []. reflexivity.
Qed.

End AddItems.



(** ** Case-insensitive item names *)

Lemma known_names_lowercase :
  Js.toLowerCase Samples.backpack = "sauce labs backpack"
  /\ Js.toLowerCase Samples.bikeLight = "sauce labs bike light"
  /\ Js.toLowerCase Samples.boltTShirt = "sauce labs bolt t-shirt".
Proof. repeat split. Qed.

Lemma control_of_None (item : string) :
  control_of item = None <->
  Js.toLowerCase item <> "sauce labs backpack"
  /\ Js.toLowerCase item <> "sauce labs bike light"
  /\ Js.toLowerCase item <> "sauce labs bolt t-shirt".
Proof.
  unfold control_of.
  destruct (String.eqb_spec (Js.toLowerCase item) "sauce labs backpack");
    [split; [discriminate | tauto]|].
  destruct (String.eqb_spec (Js.toLowerCase item) "sauce labs bike light");
    [split; [discriminate | tauto]|].
  destruct (String.eqb_spec (Js.toLowerCase item) "sauce labs bolt t-shirt");
    [split; [discriminate | tauto]|].
  tauto.
Qed.

Lemma control_of_variant (item : string) :
  (casing_variant item Samples.backpack ->
   control_of item = Some InventoryPage.sauceLabsBackpack)
  /\ (casing_variant item Samples.bikeLight ->
      control_of item = Some InventoryPage.sauceLabsBikeLight)
  /\ (casing_variant item Samples.boltTShirt ->
      control_of item = Some InventoryPage.sauceLabsBoltTShirt).
Proof.
  unfold casing_variant, control_of.
  repeat split; intros ->; reflexivity.
Qed.

Lemma lowerChar_capital (c : ascii) :
  Js.lowerChar c =
  if isCapital c then ascii_of_nat (nat_of_ascii c + 32) else c.
Proof. reflexivity. Qed.

Lemma capital_range (c : ascii) :
  isCapital c = true <->
  (65 <= nat_of_ascii c <= 90
   \/ (192 <= nat_of_ascii c <= 222 /\ nat_of_ascii c <> 215)).
Proof.
  unfold isCapital.
  rewrite orb_true_iff, !andb_true_iff, negb_true_iff, !Nat.leb_le, Nat.eqb_neq.
  tauto.
Qed.

Lemma same_letter_iff (a b : ascii) :
  same_letter a b = true <-> Js.lowerChar a = Js.lowerChar b.
Proof.
  pose proof (nat_ascii_bounded a) as Ba. pose proof (nat_ascii_bounded b) as Bb.
  assert (forall x y, nat_of_ascii x = nat_of_ascii y -> x = y) as inj.
  { intros x y E. rewrite <- (ascii_nat_embedding x), <- (ascii_nat_embedding y).
    now rewrite E. }
  unfold same_letter. rewrite !lowerChar_capital, !orb_true_iff, !andb_true_iff,
    Ascii.eqb_eq, !Nat.eqb_eq.
  destruct (isCapital a) eqn:Ca, (isCapital b) eqn:Cb;
    try (apply capital_range in Ca); try (apply capital_range in Cb);
    try (apply not_true_iff_false in Ca; rewrite capital_range in Ca);
    try (apply not_true_iff_false in Cb; rewrite capital_range in Cb).
  - split.
    + intros [[->|[_ E]]|[_ E]]; [reflexivity | lia | lia].
    + intros E. left. left. apply inj.
      apply (f_equal nat_of_ascii) in E.
      rewrite !nat_ascii_embedding in E by lia. lia.
  - split.
    + intros [[->|[_ E]]|[D _]]; [tauto | | discriminate D].
      rewrite <- E. apply ascii_nat_embedding.
    + intros E. left. right. split; [reflexivity|].
      rewrite <- E. rewrite nat_ascii_embedding by lia. reflexivity.
  - split.
    + intros [[->|[D _]]|[_ E]]; [tauto | discriminate D |].
      rewrite <- E. symmetry. apply ascii_nat_embedding.
    + intros E. right. split; [reflexivity|].
      rewrite E. rewrite nat_ascii_embedding by lia. reflexivity.
  - split.
    + intros [[->|[D _]]|[D _]]; [reflexivity | discriminate D | discriminate D].
    + intros ->. left. left. reflexivity.
Qed.

(** Differing in case only is the same as having equal lower-cased forms. *)
Lemma differs_in_case_only_iff (a b : string) :
  differs_in_case_only a b = true <-> casing_variant a b.
Proof.
  unfold casing_variant. revert b.
  induction a as [|x r IH]; intros [|y t]; simpl;
    try (split; [reflexivity || discriminate | reflexivity || discriminate]).
  rewrite andb_true_iff, same_letter_iff, IH. split.
  - intros [-> ->]. reflexivity.
  - intros [= E1 E2]. auto.
Qed.

(** C10. [InventoryPage.addItemsToCart] ignores the case of the letters of a
    name.  For every name that differs in case only from one of the three
    known names, the first command sent is the click of the add-to-cart
    control of that item: the control's click is performed on the page as it
    is, it is recorded in the trace, and the run goes on with the rest of the
    list from the page the click left (or ends with the rejection of the
    click).  A name is rejected as unknown, before any command is sent for
    it, exactly when its lower-cased form is none of the three lower-cased
    known names, that is, exactly when it differs in more than case from
    each of them. *)
Theorem addItemsToCart_case_insensitive
        {B : Type} `{Driver B} (item : string) (rest : list string)
        (s : Session B) :
  let run := InventoryPage.addItemsToCart (item :: rest) s in
  let clicks (known : string) (control : Locator) :=
    differs_in_case_only item known = true ->
    run = (click control ;; InventoryPage.addItemsToCart rest) s
    /\ run =
       match perform (Click control) (browser s) with
       | (Ok _, b') =>
           InventoryPage.addItemsToCart rest
             (mkSession b' (trace s ++ [Did (Click control)]))
       | (Throw e, b') =>
           (Throw e, mkSession b' (trace s ++ [Did (Click control)]))
       end
    /\ exists t, trace (snd run) = trace s ++ Did (Click control) :: t in
  clicks "Sauce Labs Backpack" InventoryPage.sauceLabsBackpack
  /\ clicks "Sauce Labs Bike Light" InventoryPage.sauceLabsBikeLight
  /\ clicks "Sauce Labs Bolt T-Shirt" InventoryPage.sauceLabsBoltTShirt
  /\ (run = (Throw (Error ("Unknown item: " ++ item)), s)
      <->
      Js.toLowerCase item <> "sauce labs backpack"
      /\ Js.toLowerCase item <> "sauce labs bike light"
      /\ Js.toLowerCase item <> "sauce labs bolt t-shirt")
  /\ (run = (Throw (Error ("Unknown item: " ++ item)), s)
      <->
      differs_in_case_only item "Sauce Labs Backpack" = false
      /\ differs_in_case_only item "Sauce Labs Bike Light" = false
      /\ differs_in_case_only item "Sauce Labs Bolt T-Shirt" = false).
Proof.
  intros run clicks.
  assert (forall known control,
             control_of item = Some control ->
             differs_in_case_only item known = true ->
             run = (click control ;; InventoryPage.addItemsToCart rest) s
             /\ run =
                match perform (Click control) (browser s) with
                | (Ok _, b') =>
                    InventoryPage.addItemsToCart rest
                      (mkSession b' (trace s ++ [Did (Click control)]))
                | (Throw e, b') =>
                    (Throw e, mkSession b' (trace s ++ [Did (Click control)]))
                end
             /\ exists t, trace (snd run) = trace s ++ Did (Click control) :: t)
    as known_case.
  { intros known control E _. subst run.
    split; [apply addItemsToCart_cons_recognized, E|].
    split; [|apply addItemsToCart_recognized_clicks, E].
    rewrite (addItemsToCart_cons_recognized _ _ _ _ E), bind_run.
    change (click control s) with (act (Click control) s). unfold act.
    destruct (perform (Click control) (browser s)) as [[[]|e] b'];
      reflexivity. }
  destruct (control_of_variant item) as (V1 & V2 & V3).
  assert (run = (Throw (Error ("Unknown item: " ++ item)), s) <->
          control_of item = None) as rejected.
  { subst run. split.
    - intros R. destruct (control_of item) as [l|] eqn:E;
        [exfalso | reflexivity].
      destruct (addItemsToCart_recognized_clicks item l rest s E) as [t Ht].
      rewrite R in Ht. simpl in Ht.
      apply (f_equal (@length Event)) in Ht.
      rewrite length_app in Ht. simpl in Ht. lia.
    - apply addItemsToCart_cons_unrecognized. }
  subst clicks. cbv beta.
  split; [intros V; apply (known_case _ _ (V1 (proj1 (differs_in_case_only_iff _ _) V)) V)|].
  split; [intros V; apply (known_case _ _ (V2 (proj1 (differs_in_case_only_iff _ _) V)) V)|].
  split; [intros V; apply (known_case _ _ (V3 (proj1 (differs_in_case_only_iff _ _) V)) V)|].
  split; [rewrite rejected; apply control_of_None|].
  rewrite rejected, control_of_None.
  rewrite <- !not_true_iff_false, !differs_in_case_only_iff.
  unfold casing_variant. tauto.
Qed.

Lemma addItemsToCart_case_insensitive_witness :
  trace (snd (InventoryPage.addItemsToCart ["SAUCE labs BackPack"]
                (Scripted.start Samples.two_items))) =
  [Did (Click InventoryPage.sauceLabsBackpack)]
  /\ Scripted.actions
       (browser (snd (InventoryPage.addItemsToCart ["SAUCE labs BackPack"]
                        (Scripted.start Samples.two_items)))) = 1.
Proof.
  destruct (proj1 (addItemsToCart_case_insensitive
                     "SAUCE labs BackPack" [] (Scripted.start Samples.two_items))
                  eq_refl) as (_ & -> & _).
  split; reflexivity.
Defined.

(** ** The cart badge *)

Lemma readDigits_decimal (d : uint) (a : nat) :
  Js.readDigits Js.digitValue 10 (Some (Z.of_nat a)) (NilEmpty.string_of_uint d) =
  Some (Z.of_nat (Nat.of_uint_acc d a)).
Proof.
  revert a. induction d; intros a; simpl; [reflexivity | ..];
    match goal with
    | |- Js.readDigits _ _ (Some ?z) _ = Some (Z.of_nat (Nat.of_uint_acc _ ?m)) =>
        replace z with (Z.of_nat m)
          by (rewrite ?Nat.tail_mul_spec; simpl Z.of_nat; lia)
    end; apply IHd.
Qed.

Lemma parseInt_decimal (d : uint) :
  d <> Nil ->
  Js.parseInt (NilEmpty.string_of_uint d) = Js.Num (Z.of_nat (Nat.of_uint d)).
Proof.
  assert (forall (z : Z) (k : nat) (r : uint),
             z = Z.of_nat k ->
             match Js.readDigits Js.digitValue 10 (Some z)
                     (NilEmpty.string_of_uint r) with
             | Some v => Js.Num (1 * v)
             | None => Js.NaN
             end = Js.Num (Z.of_nat (Nat.of_uint_acc r k))) as step.
  { intros z k r ->. rewrite readDigits_decimal. f_equal. lia. }
  intros N. destruct d as [|d|d|d|d|d|d|d|d|d|d]; [contradiction | ..];
    try (apply (step _ _ d); reflexivity).
  destruct d; [reflexivity|..]; cbn;
    match goal with
    | |- _ = Js.Num (Z.of_nat (Nat.of_uint_acc ?r ?k)) =>
        exact (step (Z.of_nat k) k r eq_refl)
    end.
Qed.

Lemma parseInt_numeral (n : nat) : Js.parseInt (numeral n) = Js.Num (Z.of_nat n).
Proof.
  unfold numeral. rewrite parseInt_decimal.
  - now rewrite DecimalNat.Unsigned.of_to.
  - intros E. pose proof (f_equal Nat.of_uint E) as E'.
    rewrite DecimalNat.Unsigned.of_to in E'. simpl in E'. subst n.
    vm_compute in E. discriminate E.
Qed.

Lemma parseInt_no_numeral (c : ascii) (r : string) :
  Js.isWhiteSpace c = false -> c <> "-"%char -> c <> "+"%char ->
  Js.digitValue c = None ->
  Js.parseInt (String c r) = Js.NaN.
Proof.
  destruct c as [[|] [|] [|] [|] [|] [|] [|] [|]]; intros W M P D;
    try discriminate W; try discriminate D;
    try (exfalso; apply M; reflexivity); try (exfalso; apply P; reflexivity);
    reflexivity.
Qed.

Section CartBadge.
Context {B : Type} `{Driver B}.

(** What [getCartItemCount] returns, by the outcome of reading the badge. *)
Lemma getCartItemCount_run (s : Session B) :
  InventoryPage.getCartItemCount s =
  (Ok match textContent_of (browser s) InventoryPage.cartBadge with
      | Ok badgeText => if_truthy badgeText Js.parseInt (Js.Num 0)
      | Throw _ => Js.Num 0
      end, s).
Proof.
  unfold InventoryPage.getCartItemCount, try_catch, bind, textContent, ret.
  destruct (textContent_of (browser s) InventoryPage.cartBadge); reflexivity.
Qed.

End CartBadge.

(** C3 (as amended). [InventoryPage.getCartItemCount] never raises and leaves
    the session as it was.  It returns 0 when the badge is missing (reading it
    rejects) and when its text is null or empty; it returns [n] when the badge
    shows the decimal numeral of [n]; for any other non-empty text it returns
    [parseInt] of the text, which is NaN, not 0, when the text starts with a
    character that is neither white space, nor a sign, nor a digit. *)
Theorem getCartItemCount_total
        {B : Type} `{Driver B} (s : Session B) :
  (exists n, InventoryPage.getCartItemCount s = (Ok n, s))
  /\ (forall e,
        textContent_of (browser s) InventoryPage.cartBadge = Throw e ->
        InventoryPage.getCartItemCount s = (Ok (Js.Num 0), s))
  /\ (textContent_of (browser s) InventoryPage.cartBadge = Ok None ->
      InventoryPage.getCartItemCount s = (Ok (Js.Num 0), s))
  /\ (textContent_of (browser s) InventoryPage.cartBadge = Ok (Some "") ->
      InventoryPage.getCartItemCount s = (Ok (Js.Num 0), s))
  /\ (forall n : nat,
        textContent_of (browser s) InventoryPage.cartBadge = Ok (Some (numeral n)) ->
        InventoryPage.getCartItemCount s = (Ok (Js.Num (Z.of_nat n)), s))
  /\ (forall t,
        t <> "" ->
        textContent_of (browser s) InventoryPage.cartBadge = Ok (Some t) ->
        InventoryPage.getCartItemCount s = (Ok (Js.parseInt t), s))
  /\ (forall c r,
        Js.isWhiteSpace c = false -> c <> "-"%char -> c <> "+"%char ->
        Js.digitValue c = None ->
        textContent_of (browser s) InventoryPage.cartBadge = Ok (Some (String c r)) ->
        InventoryPage.getCartItemCount s = (Ok Js.NaN, s)).
Proof.
  assert (forall t,
             t <> "" ->
             textContent_of (browser s) InventoryPage.cartBadge = Ok (Some t) ->
             InventoryPage.getCartItemCount s = (Ok (Js.parseInt t), s)) as nonempty.
  { intros t N E. rewrite getCartItemCount_run, E.
    destruct t; [contradiction | reflexivity]. }
  split; [eexists; apply getCartItemCount_run|].
  split; [intros e E; rewrite getCartItemCount_run, E; reflexivity|].
  split; [intros E; rewrite getCartItemCount_run, E; reflexivity|].
  split; [intros E; rewrite getCartItemCount_run, E; reflexivity|].
  split; [|split; [exact nonempty|]].
  - intros n E. rewrite <- parseInt_numeral. apply nonempty; [|exact E].
    intros Z. pose proof (parseInt_numeral n) as P. rewrite Z in P. discriminate P.
  - intros c r W M P D E. rewrite <- (parseInt_no_numeral c r W M P D).
    apply nonempty; [discriminate | exact E].
Qed.

Lemma getCartItemCount_total_witness :
  InventoryPage.getCartItemCount (Scripted.start Samples.badge_3) =
    (Ok (Js.Num 3), Scripted.start Samples.badge_3)
  /\ InventoryPage.getCartItemCount (Scripted.start Samples.no_badge) =
    (Ok (Js.Num 0), Scripted.start Samples.no_badge).
Proof.
  split.
  - destruct (getCartItemCount_total (Scripted.start Samples.badge_3))
      as (_ & _ & _ & _ & Hn & _).
    exact (Hn 3 eq_refl).
  - destruct (getCartItemCount_total (Scripted.start Samples.no_badge))
      as (_ & Hmissing & _).
    exact (Hmissing _ eq_refl).
Defined.

(** The claim as first stated, that an unparsable badge text counts as 0,
    fails on a badge showing "abc": the text has no integer prefix and the
    method returns NaN. *)
Lemma getCartItemCount_unparsable_counterexample :
  textContent_of Samples.badge_abc InventoryPage.cartBadge = Ok (Some "abc")
  /\ Js.parseInt "abc" = Js.NaN
  /\ fst (InventoryPage.getCartItemCount (Scripted.start Samples.badge_abc)) =
     Ok Js.NaN
  /\ fst (InventoryPage.getCartItemCount (Scripted.start Samples.badge_abc)) <>
     Ok (Js.Num 0).
Proof. repeat split. discriminate. Qed.

(** ** The completion screen *)

Section Completion.
Context {B : Type} `{Driver B}.

Lemma getCompleteHeaderText_run (s : Session B) :
  CheckoutCompletePage.getCompleteHeaderText s =
  (match textContent_of (browser s) CheckoutCompletePage.completeHeader with
   | Ok t => Ok (if_truthy t Js.trim "")
   | Throw e => Throw e
   end, s).
Proof.
  unfold CheckoutCompletePage.getCompleteHeaderText, bind, textContent, ret.
  destruct (textContent_of _ _); reflexivity.
Qed.

Lemma getCompleteText_run (s : Session B) :
  CheckoutCompletePage.getCompleteText s =
  (match textContent_of (browser s) CheckoutCompletePage.completeText with
   | Ok t => Ok (if_truthy t Js.trim "")
   | Throw e => Throw e
   end, s).
Proof.
  unfold CheckoutCompletePage.getCompleteText, bind, textContent, ret.
  destruct (textContent_of _ _); reflexivity.
Qed.

End Completion.

(** C4 (as amended). [CheckoutCompletePage.verifyCheckoutCompletion] returns
    true if and only if the header text is exactly "Thank you for your order!"
    and the body text contains "Your order has been dispatched".  The second
    sentence of the body is looked for by [verifyOrderDispatchMessage], which
    returns true if and only if the body contains both sentences. *)
Theorem verifyCheckoutCompletion_iff
        {B : Type} `{Driver B} (s : Session B) :
  (fst (CheckoutCompletePage.verifyCheckoutCompletion s) = Ok true <->
   fst (CheckoutCompletePage.getCompleteHeaderText s) =
     Ok "Thank you for your order!"
   /\ exists body,
       fst (CheckoutCompletePage.getCompleteText s) = Ok body
       /\ Js.includes body "Your order has been dispatched" = true)
  /\
  (fst (CheckoutCompletePage.verifyOrderDispatchMessage s) = Ok true <->
   exists body,
     fst (CheckoutCompletePage.getCompleteText s) = Ok body
     /\ Js.includes body "Your order has been dispatched" = true
     /\ Js.includes body
          "will arrive just as fast as the pony can get there!" = true).
Proof.
  unfold CheckoutCompletePage.verifyCheckoutCompletion,
    CheckoutCompletePage.verifyOrderDispatchMessage.
  rewrite !bind_run, getCompleteHeaderText_run, getCompleteText_run.
  split.
  - destruct (textContent_of (browser s) CheckoutCompletePage.completeHeader)
      as [h|e]; simpl.
    + rewrite ?bind_run, ?getCompleteText_run.
      destruct (textContent_of (browser s) CheckoutCompletePage.completeText)
        as [c|e]; simpl.
      * split.
        -- intros [= E]. apply andb_true_iff in E as [E1 E2].
           apply String.eqb_eq in E1. rewrite E1.
           split; [reflexivity|]. eexists; split; [reflexivity | exact E2].
        -- intros [[= ->] (body & [= <-] & I)]. rewrite I. reflexivity.
      * split; [discriminate|]. intros [_ (body & D & _)]. discriminate D.
    + split; [discriminate|]. intros [D _]. discriminate D.
  - destruct (textContent_of (browser s) CheckoutCompletePage.completeText)
      as [c|e]; simpl.
    + split.
      * intros [= E]. apply andb_true_iff in E as [E1 E2]. eauto.
      * intros (body & [= <-] & I1 & I2). rewrite I1, I2. reflexivity.
    + split; [discriminate|]. intros (body & D & _). discriminate D.
Qed.

(** The claim as first stated, that the composite check also requires the
    second sentence of the body, fails on a completion screen whose body is
    "Your order has been dispatched.": the check returns true. *)
Lemma verifyCheckoutCompletion_counterexample :
  fst (CheckoutCompletePage.verifyCheckoutCompletion
         (Scripted.start Samples.dispatched_only)) = Ok true
  /\ fst (CheckoutCompletePage.getCompleteText
            (Scripted.start Samples.dispatched_only)) =
     Ok "Your order has been dispatched."
  /\ Js.includes "Your order has been dispatched."
       "will arrive just as fast as the pony can get there!" = false.
Proof. repeat split. Qed.

(** ** The optional error banner *)

Lemma try_wait_then_read {B : Type} `{Driver B} (l : Locator) (s : Session B) :
  reports_absence_as_null
    (try_catch (waitFor l 5000 ;; textContent l) (fun _ => ret None)) l s.
Proof.
  unfold reports_absence_as_null, try_catch, bind, waitFor, textContent, ret.
  rewrite act_run. simpl.
  destruct (perform (WaitFor l 5000) (browser s)) as [[[]|e] b']; simpl.
  - destruct (textContent_of b' l) as [t|e'] eqn:E.
    + split; [eexists; reflexivity|]. split; [discriminate|].
      split; [intros t' _ [= <-]; reflexivity | discriminate].
    + split; [eexists; reflexivity|]. split; [discriminate|].
      split; [discriminate | reflexivity].
  - split; [eexists; reflexivity|]. split; [reflexivity|].
    split; discriminate.
Qed.

(** C7. [LoginPage.getErrorMessage] and [CheckoutPage.getErrorMessage] never
    throw: each sends one wait for the banner bounded by 5000 ms and returns
    the text of the banner when the banner shows up, null otherwise. *)
Theorem getErrorMessage_absence_is_null
        {B : Type} `{Driver B} (s : Session B) :
  reports_absence_as_null LoginPage.getErrorMessage LoginPage.errorMessage s
  /\ reports_absence_as_null
       CheckoutPage.getErrorMessage CheckoutPage.errorMessage s.
Proof. split; apply try_wait_then_read. Qed.

Example getErrorMessage_samples :
  fst (LoginPage.getErrorMessage (Scripted.start Samples.with_banner)) =
    Ok (Some "Epic sadface: Username is required")
  /\ fst (LoginPage.getErrorMessage (Scripted.start Samples.no_badge)) = Ok None
  /\ fst (CheckoutPage.getErrorMessage (Scripted.start Samples.no_badge)) = Ok None.
Proof. repeat split. Qed.

(** ** Combined form operations *)

Ltac step_action :=
  match goal with
  | |- context [perform ?a ?b] =>
      let b' := fresh "b" in
      destruct (perform a b) as [[[]|?] b']; simpl; [|discriminate]
  end.

(** C8. [LoginPage.login(u, p)] is the sequence [fillUsername(u)],
    [fillPassword(p)], [clickLogin()], and
    [CheckoutPage.fillCheckoutInformation(f, l, c)] is the sequence
    [fillFirstName(f)], [fillLastName(l)], [fillPostalCode(c)]: from any
    session, the combined call and the three separate calls give the same
    outcome and leave the same session (the same page and the same commands
    sent). *)
Theorem combined_forms_are_sequences
        {B : Type} `{Driver B} (s : Session B) :
  (forall u p,
      LoginPage.login u p s =
      three_calls (LoginPage.fillUsername u) (LoginPage.fillPassword p)
                  LoginPage.clickLogin s)
  /\ (forall f l c,
         CheckoutPage.fillCheckoutInformation f l c s =
         three_calls (CheckoutPage.fillFirstName f) (CheckoutPage.fillLastName l)
                     (CheckoutPage.fillPostalCode c) s)
  /\ (forall u p,
         fst (LoginPage.login u p s) = Ok tt ->
         trace (snd (LoginPage.login u p s)) =
         trace s ++ [Did (Clear LoginPage.usernameInput);
                     Did (Fill LoginPage.usernameInput u);
                     Did (Clear LoginPage.passwordInput);
                     Did (Fill LoginPage.passwordInput p);
                     Did (Click LoginPage.loginButton)])
  /\ (forall f l c,
         fst (CheckoutPage.fillCheckoutInformation f l c s) = Ok tt ->
         trace (snd (CheckoutPage.fillCheckoutInformation f l c s)) =
         trace s ++ [Did (Clear CheckoutPage.firstNameInput);
                     Did (Fill CheckoutPage.firstNameInput f);
                     Did (Clear CheckoutPage.lastNameInput);
                     Did (Fill CheckoutPage.lastNameInput l);
                     Did (Clear CheckoutPage.postalCodeInput);
                     Did (Fill CheckoutPage.postalCodeInput c)]).
Proof.
  split; [|split; [|split]].
  - intros u p. unfold LoginPage.login, three_calls. rewrite bind_run.
    destruct (LoginPage.fillUsername u s) as [[[]|e] s1]; [|reflexivity].
    rewrite bind_run.
    destruct (LoginPage.fillPassword p s1) as [[[]|e] s2]; reflexivity.
  - intros f l c.
    unfold CheckoutPage.fillCheckoutInformation, three_calls. rewrite bind_run.
    destruct (CheckoutPage.fillFirstName f s) as [[[]|e] s1]; [|reflexivity].
    rewrite bind_run.
    destruct (CheckoutPage.fillLastName l s1) as [[[]|e] s2]; reflexivity.
  - intros u p.
    unfold LoginPage.login, LoginPage.fillUsername, LoginPage.fillPassword,
      LoginPage.clickLogin, bind, click, clear, fill, act. simpl.
    do 4 step_action.
    destruct (perform _ _) as [r b3]; simpl. intros _.
    now rewrite <- !app_assoc.
  - intros f l c.
    unfold CheckoutPage.fillCheckoutInformation, CheckoutPage.fillFirstName,
      CheckoutPage.fillLastName, CheckoutPage.fillPostalCode,
      bind, clear, fill, act. simpl.
    do 5 step_action.
    destruct (perform _ _) as [r b4]; simpl. intros _.
    now rewrite <- !app_assoc.
Qed.

Lemma combined_forms_are_sequences_witness :
  trace (snd (LoginPage.login "standard_user" "secret_sauce"
                (Scripted.start Samples.no_badge))) =
  [Did (Clear LoginPage.usernameInput);
   Did (Fill LoginPage.usernameInput "standard_user");
   Did (Clear LoginPage.passwordInput);
   Did (Fill LoginPage.passwordInput "secret_sauce");
   Did (Click LoginPage.loginButton)].
Proof.
  destruct (combined_forms_are_sequences (Scripted.start Samples.no_badge))
    as (_ & _ & Hlogin & _).
  exact (Hlogin "standard_user" "secret_sauce" eq_refl).
Defined.

(** ** Removing an item from the cart *)

Section Remove.
Context {B : Type} `{Driver B}.

Lemma remove_loop_cons (row : Locator) (rest : list Locator)
      (itemName : string) (s : Session B) :
  CartPage.removeItemFromCart_loop (row :: rest) itemName s =
  match row_name (browser s) row with
  | Ok name =>
      if CartPage.name_matches name itemName
      then click (remove_button row) s
      else CartPage.removeItemFromCart_loop rest itemName s
  | Throw e => (Throw e, s)
  end.
Proof.
  simpl. unfold bind, textContent, row_name.
  destruct (textContent_of (browser s) (Sub row ".inventory_item_name"))
    as [name|e]; [|reflexivity].
  destruct (CartPage.name_matches name itemName); reflexivity.
Qed.

(** Scanning rows none of which carries the name sends nothing. *)
Lemma remove_loop_no_match (rows : list Locator) (itemName : string)
      (s : Session B) :
  (forall row, In row rows -> row_matches (browser s) itemName row = false) ->
  snd (CartPage.removeItemFromCart_loop rows itemName s) = s.
Proof.
  induction rows as [|row rest IH]; intros N; [reflexivity|].
  rewrite remove_loop_cons.
  pose proof (N row (or_introl eq_refl)) as Nrow. unfold row_matches in Nrow.
  destruct (row_name (browser s) row) as [name|e]; [|reflexivity].
  rewrite Nrow. apply IH. intros r Hr. apply N. right. exact Hr.
Qed.

(** The scan stops at the first row that carries the name and clicks its
    remove button. *)
Lemma remove_loop_first_match (before after : list Locator) (row : Locator)
      (itemName : string) (s : Session B) :
  (forall r, In r before ->
             exists name, row_name (browser s) r = Ok name
                          /\ CartPage.name_matches name itemName = false) ->
  row_matches (browser s) itemName row = true ->
  CartPage.removeItemFromCart_loop (before ++ row :: after) itemName s =
  click (remove_button row) s.
Proof.
  intros Hb Hrow. induction before as [|r before IH]; simpl List.app.
  - rewrite remove_loop_cons. unfold row_matches in Hrow.
    destruct (row_name (browser s) row) as [name|e]; [|discriminate].
    rewrite Hrow. reflexivity.
  - rewrite remove_loop_cons.
    destruct (Hb r (or_introl eq_refl)) as (name & -> & ->).
    apply IH. intros r' Hr'. apply Hb. right. exact Hr'.
Qed.

End Remove.



(** ** Retry with backoff *)

Example backoff_events_sample :
  backoff_events 1000 2 = [Invoked; Slept 1000; Invoked; Slept 2000; Invoked].
Proof. reflexivity. Qed.

Example retryWithBackoff_samples :
  TestHelpers.retryWithBackoff Samples.flaky 3 1000
    (Scripted.start Samples.no_badge) =
  (Ok 7, mkSession (Scripted.mkPage [] [] 0 2)
                   [Invoked; Slept 1000; Invoked; Slept 2000; Invoked])
  /\ TestHelpers.retryWithBackoff Samples.hopeless 2 500
       (Scripted.start Samples.no_badge) =
     (Throw (Error "element is not attached"),
      mkSession (Scripted.mkPage [] [] 0 2)
                [Invoked; Slept 500; Invoked; Slept 1000; Invoked])
  /\ TestHelpers.retryWithBackoff Samples.hopeless 0 500
       (Scripted.start Samples.no_badge) =
     (Throw (Error "element is not attached"),
      mkSession (Scripted.mkPage [] [] 0 0) [Invoked]).
Proof. repeat split. Qed.

Section Retry.
Context {B : Type} `{Driver B} {T : Type}.
Variable fn : M B T.
Variables maxRetries baseDelay : Z.

Local Abbreviation loop := (TestHelpers.retryWithBackoff_loop fn maxRetries baseDelay).
Local Abbreviation before := (session_before_attempt fn baseDelay).

(** One pass of the loop, by the outcome of the call. *)
Lemma retry_body_run (attempt : Z) (s : Session B) :
  TestHelpers.retryWithBackoff_body fn maxRetries baseDelay attempt s =
  match invoke fn s with
  | (Ok v, s1) => (Ok (inl v), s1)
  | (Throw e, s1) =>
      if (attempt =? maxRetries)%Z then (Throw e, s1)
      else (Ok (inr e), snd (sleep (baseDelay * 2 ^ attempt) s1))
  end.
Proof.
  unfold TestHelpers.retryWithBackoff_body, try_catch. rewrite bind_run.
  destruct (invoke fn s) as [[v|e] s1]; [reflexivity|].
  destruct (attempt =? maxRetries)%Z; reflexivity.
Qed.

Lemma before_shift (first : Z) (s : Session B) (j : nat) :
  before first s (S j) =
  before (first + 1)%Z
         (snd (sleep (baseDelay * 2 ^ first) (snd (invoke fn s)))) j.
Proof.
  induction j as [|j IH].
  - simpl. now rewrite Z.add_0_r.
  - change (before first s (S (S j)))
      with (snd (sleep (baseDelay * 2 ^ (first + Z.of_nat (S j)))
                   (snd (invoke fn (before first s (S j)))))).
    rewrite IH. simpl session_before_attempt.
    replace (first + 1 + Z.of_nat j)%Z with (first + Z.of_nat (S j))%Z by lia.
    reflexivity.
Qed.

(** The loop, started at attempt number [attempt] with exactly the passes
    that are left, ends with the call of [fn] of some attempt [attempt + j]:
    all attempts before it have failed, and it is the last attempt allowed
    unless it succeeds. *)
Lemma retry_loop_spec (fuel : nat) :
  forall (attempt : Z) (s : Session B) (lastError : exn),
    Z.of_nat (S fuel) = (maxRetries + 1 - attempt)%Z ->
    exists j, j <= fuel
      /\ loop (S fuel) attempt lastError s = invoke fn (before attempt s j)
      /\ (forall i, i < j ->
                    exists e, fst (invoke fn (before attempt s i)) = Throw e)
      /\ (j < fuel -> exists v, fst (invoke fn (before attempt s j)) = Ok v).
Proof.
  induction fuel as [|fuel IH]; intros attempt s lastError F.
  - exists 0. split; [lia|]. split; [|split; intros; lia].
    simpl. replace (attempt <=? maxRetries)%Z with true
      by (symmetry; apply Z.leb_le; lia).
    rewrite bind_run, retry_body_run.
    destruct (invoke fn s) as [[v|e] s1]; [reflexivity|].
    replace (attempt =? maxRetries)%Z with true
      by (symmetry; apply Z.eqb_eq; lia).
    reflexivity.
  - change (loop (S (S fuel)) attempt lastError s)
      with ((if (attempt <=? maxRetries)%Z
             then r <- TestHelpers.retryWithBackoff_body fn maxRetries
                         baseDelay attempt ;;
                  match r with
                  | inl v => ret v
                  | inr error => loop (S fuel) (attempt + 1)%Z error
                  end
             else throw lastError) s).
    replace (attempt <=? maxRetries)%Z with true
      by (symmetry; apply Z.leb_le; lia).
    rewrite bind_run, retry_body_run.
    destruct (invoke fn s) as [[v|e] s1] eqn:E.
    + exists 0. simpl. rewrite E.
      split; [lia|]. split; [reflexivity|]. split; [intros; lia|].
      intros _. exists v. reflexivity.
    + replace (attempt =? maxRetries)%Z with false
        by (symmetry; apply Z.eqb_neq; lia).
      destruct (IH (attempt + 1)%Z
                   (snd (sleep (baseDelay * 2 ^ attempt) s1)) e)
        as (j & Hj & Hrun & Hfail & Hok); [lia|].
      assert (forall i, before attempt s (S i) =
                        before (attempt + 1)%Z
                               (snd (sleep (baseDelay * 2 ^ attempt) s1)) i)
        as Sh.
      { intros i. rewrite before_shift, E. reflexivity. }
      exists (S j). split; [lia|]. rewrite Sh. split; [exact Hrun|]. split.
      * intros [|i] Hi.
        -- exists e. simpl. rewrite E. reflexivity.
        -- rewrite Sh. apply Hfail. lia.
      * intros Hlt. apply Hok. lia.
Qed.

(** A wrapped function that leaves no event of its own: the helper's trace
    is then the calls and the waits. *)
Lemma quiet_trace (s : Session B) (k : nat) :
  (forall st, trace (snd (fn st)) = trace st) ->
  trace (snd (invoke fn (before 0%Z s k))) = trace s ++ backoff_events baseDelay k.
Proof.
  intros Q. unfold backoff_events. induction k as [|k IH].
  - unfold invoke. rewrite Q. reflexivity.
  - unfold invoke at 1. rewrite Q.
    simpl session_before_attempt. simpl trace. rewrite IH.
    rewrite seq_S, flat_map_app. simpl.
    now rewrite <- !app_assoc.
Qed.

End Retry.



(** The fuel given by [retryWithBackoff] never cuts the loop short: with any
    amount of fuel on top, the loop runs the same passes.  And with a negative
    [maxRetries] the loop body never runs: [lastError], still unassigned, is
    thrown. *)
Lemma retry_fuel_is_enough
      {B : Type} `{Driver B} {T : Type} (fn : M B T) (m d : Z) (fuel : nat) :
  forall (extra : nat) (attempt : Z) (lastError : exn) (s : Session B),
    fuel = Z.to_nat (m + 1 - attempt) ->
    TestHelpers.retryWithBackoff_loop fn m d (fuel + extra) attempt lastError s =
    TestHelpers.retryWithBackoff_loop fn m d fuel attempt lastError s.
Proof.
  induction fuel as [|fuel IH]; intros extra attempt lastError s F.
  - destruct extra; [reflexivity|]. simpl.
    replace (attempt <=? m)%Z with false by (symmetry; apply Z.leb_gt; lia).
    reflexivity.
  - simpl. destruct (attempt <=? m)%Z; [|reflexivity].
    rewrite !bind_run.
    destruct (TestHelpers.retryWithBackoff_body fn m d attempt s)
      as [[[v|e]|e] s1]; try reflexivity.
    apply IH. lia.
Qed.

Lemma retryWithBackoff_negative
      {B : Type} `{Driver B} {T : Type} (fn : M B T) (m d : Z) (s : Session B) :
  (m < 0)%Z ->
  TestHelpers.retryWithBackoff fn m d s = (Throw Undefined, s).
Proof.
  intros N. unfold TestHelpers.retryWithBackoff.
  replace (Z.to_nat (m + 1)) with 0 by lia. reflexivity.
Qed.

(** ** The total check of the overview page *)

Section TotalCheck.
Context {B : Type} `{Driver B}.
Import CheckoutOverviewPage_totals.

Lemma calculateTotalFromItems_run (s : Session B) :
  calculateTotalFromItems s
  = (Ok (sum_of_prices
           (map Js.trim (allTextContents_of (browser s) cartItemPrices))), s).
Proof. reflexivity. Qed.

Lemma getTotal_run (s : Session B) :
  getTotal s
  = (match textContent_of (browser s) totalLabel with
     | Ok totalText => Ok (if_truthy totalText Js.trim "")
     | Throw e => Throw e
     end, s).
Proof.
  unfold getTotal. rewrite bind_run. unfold textContent. cbn [fst snd].
  destruct (textContent_of (browser s) totalLabel); reflexivity.
Qed.

Lemma verifyTotalCalculation_run (s : Session B) :
  verifyTotalCalculation s
  = (match textContent_of (browser s) totalLabel with
     | Ok totalText =>
         let difference :=
           PrimFloat.abs
             (PrimFloat.sub
                (sum_of_prices
                   (map Js.trim (allTextContents_of (browser s) cartItemPrices)))
                (JsNumber.parseFloat
                   (JsNumber.keep_digits_and_dots
                      (if_truthy totalText Js.trim "")))) in
         if PrimFloat.ltb difference tolerance then Ok tt
         else Throw (ToBeLessThanFailed difference tolerance)
     | Throw e => Throw e
     end, s).
Proof.
  unfold verifyTotalCalculation.
  rewrite bind_run, calculateTotalFromItems_run. cbn [fst snd].
  rewrite bind_run, getTotal_run. cbn [fst snd].
  destruct (textContent_of (browser s) totalLabel) as [totalText|e];
    [|reflexivity].
  unfold expect_toBeLessThan. cbv zeta.
  destruct (PrimFloat.ltb _ tolerance); reflexivity.
Qed.

End TotalCheck.

(** C5 (amended): the total check passes if and only if the total label can
    be read and the absolute difference between the sum of the prices and
    the number of the total is below 0.01, all of it in binary64 arithmetic:
    every price is read by [parseFloat] after its first dollar sign is
    removed, the prices are added from left to right starting from 0, the
    total is read by [parseFloat] from the digits and dots of its trimmed
    text, and 0.01 is the double nearest to one hundredth,
    5764607523034235 * 2^-59.  The check reads the page only; when it fails,
    the error carries the difference and the bound, or is the error of the
    read. *)
Theorem verifyTotalCalculation_iff {B : Type} `{Driver B} (s : Session B) :
  let prices :=
    map Js.trim (allTextContents_of (browser s)
                   CheckoutOverviewPage_totals.cartItemPrices) in
  let calculatedTotal :=
    fold_left
      (fun total price =>
         PrimFloat.add total
           (JsNumber.parseFloat (JsNumber.remove_first_dollar price)))
      prices PrimFloat.zero in
  let totalAmount totalText :=
    JsNumber.parseFloat
      (JsNumber.keep_digits_and_dots (if_truthy totalText Js.trim "")) in
  let difference totalText :=
    PrimFloat.abs (PrimFloat.sub calculatedTotal (totalAmount totalText)) in
  let run := CheckoutOverviewPage_totals.verifyTotalCalculation s in
  (fst run = Ok tt <->
   exists totalText,
     textContent_of (browser s) CheckoutOverviewPage_totals.totalLabel
     = Ok totalText
     /\ PrimFloat.ltb (difference totalText)
                      CheckoutOverviewPage_totals.tolerance = true)
  /\ snd run = s
  /\ fst run
     = match textContent_of (browser s) CheckoutOverviewPage_totals.totalLabel with
       | Ok totalText =>
           if PrimFloat.ltb (difference totalText)
                            CheckoutOverviewPage_totals.tolerance
           then Ok tt
           else Throw (ToBeLessThanFailed (difference totalText)
                         CheckoutOverviewPage_totals.tolerance)
       | Throw e => Throw e
       end
  /\ FloatOps.Prim2SF CheckoutOverviewPage_totals.tolerance
     = SpecFloat.S754_finite false 5764607523034235 (-59).
Proof.
  cbv zeta. rewrite verifyTotalCalculation_run. cbn [fst snd].
  fold (CheckoutOverviewPage_totals.sum_of_prices
          (map Js.trim (allTextContents_of (browser s)
                          CheckoutOverviewPage_totals.cartItemPrices))).
  split; [|split; [reflexivity|split; [reflexivity|vm_compute; reflexivity]]].
  destruct (textContent_of (browser s) CheckoutOverviewPage_totals.totalLabel)
    as [totalText|e].
  - cbv zeta.
    destruct (PrimFloat.ltb _ CheckoutOverviewPage_totals.tolerance) eqn:L.
    + split; [intros _; exists totalText; split; [reflexivity|exact L]
             |reflexivity].
    + split; [discriminate|].
      intros [t [E L']]. injection E as <-. rewrite L in L'. discriminate.
  - split; [discriminate|]. intros [t [E _]]. discriminate.
Qed.

(** Where the exact numbers and the doubles part: three cents against two
    cents passes, although the numbers differ by exactly one hundredth, which
    is not below one hundredth. *)
Lemma verifyTotalCalculation_exact_counterexample :
  let s := Scripted.start Samples_totals.three_against_two in
  fst (CheckoutOverviewPage_totals.getCartItemPrices s) = Ok ["$0.03"]
  /\ fst (CheckoutOverviewPage_totals.getTotal s) = Ok "Total: $0.02"
  /\ exact_sum ["$0.03"] = Some (QArith_base.Qmake 3 100)
  /\ JsNumber.exact_value (JsNumber.keep_digits_and_dots "Total: $0.02")
     = Some (QArith_base.Qmake 2 100)
  /\ ~ exactly_within_a_cent ["$0.03"] "Total: $0.02"
  /\ fst (CheckoutOverviewPage_totals.verifyTotalCalculation s) = Ok tt.
Proof.
  cbv zeta.
  split; [vm_compute; reflexivity|].
  split; [vm_compute; reflexivity|].
  split; [vm_compute; reflexivity|].
  split; [vm_compute; reflexivity|].
  split; [|vm_compute; reflexivity].
  intros [sum [amount [Es [Ea L]]]].
  vm_compute in Es. vm_compute in Ea.
  injection Es as <-. injection Ea as <-.
  vm_compute in L. discriminate.
Qed.

(** The other way round: a price a hair below four cents against three cents
    fails, although the numbers differ by less than one hundredth; and the
    usual runs. *)
Example verifyTotalCalculation_samples :
  let run p := fst (CheckoutOverviewPage_totals.verifyTotalCalculation
                      (Scripted.start p)) in
  exactly_within_a_cent ["$0.0399999999999999999999"] "0.03"
  /\ (exists d t,
        run (Samples_totals.overview ["$0.0399999999999999999999"] "0.03")
        = Throw (ToBeLessThanFailed d t))
  /\ run Samples_totals.items_total = Ok tt
  /\ (exists d t, run Samples_totals.shop_total = Throw (ToBeLessThanFailed d t))
  /\ (exists d t,
        run (Samples_totals.overview ["$29.99"] "") = Throw (ToBeLessThanFailed d t)
        /\ PrimFloat.is_nan d = true)
  /\ run (Samples_totals.overview ["29,99"] "29") = Ok tt
  /\ run (Samples_totals.overview ["$19.99"] "Total 1: $9.99") = Ok tt
  /\ run (Samples_totals.overview [] "nothing to pay") <> Ok tt
  /\ run (Samples_totals.overview [] "0.00") = Ok tt.
Proof.
  cbv zeta.
  split.
  { eexists. eexists. split; [vm_compute; reflexivity|].
    split; [vm_compute; reflexivity|]. vm_compute. reflexivity. }
  split; [eexists; eexists; vm_compute; reflexivity|].
  split; [vm_compute; reflexivity|].
  split; [eexists; eexists; vm_compute; reflexivity|].
  split; [eexists; eexists; split; vm_compute; reflexivity|].
  split; [vm_compute; reflexivity|].
  split; [vm_compute; reflexivity|].
  split; [vm_compute; discriminate|].
  vm_compute; reflexivity.
Qed.

(** * Further properties *)

(** ** Substrings and trimming *)

Lemma prefix_iff (sub s : string) :
  String.prefix sub s = true <-> exists post, s = (sub ++ post)%string.
Proof.
  revert s. induction sub as [|c sub IH]; intros s.
  - split; [intros _; exists s; reflexivity | destruct s; reflexivity].
  - destruct s as [|c' s]; simpl;
      [split; [discriminate | intros [post [=]]]|].
    destruct (Ascii.ascii_dec c c') as [E|N].
    + subst c'. rewrite IH.
      split; intros [post E]; exists post; congruence.
    + split; [discriminate|]. intros [post [= E _]]. congruence.
Qed.

Lemma includes_iff (s sub : string) :
  Js.includes s sub = true <-> exists pre post, s = (pre ++ sub ++ post)%string.
Proof.
  induction s as [|c s IH].
  - change (Js.includes "" sub) with (String.prefix sub "" || false).
    rewrite orb_true_iff, prefix_iff. split.
    + intros [[post E]|D]; [|discriminate]. exists "", post. exact E.
    + intros (pre & post & E). left. destruct pre; [|discriminate].
      exists post. exact E.
  - change (Js.includes (String c s) sub)
      with (String.prefix sub (String c s) || Js.includes s sub).
    rewrite orb_true_iff, prefix_iff, IH. split.
    + intros [[post E]|(pre & post & E)].
      * exists "", post. exact E.
      * exists (String c pre), post. simpl. now rewrite E.
    + intros (pre & post & E). destruct pre as [|c' pre].
      * left. exists post. exact E.
      * right. simpl in E. injection E as _ E. eauto.
Qed.

Lemma trimStart_no_leading (s : string) : no_leading_space (Js.trimStart s).
Proof.
  induction s as [|c r IH]; simpl; [exact I|].
  destruct (Js.isWhiteSpace c) eqn:W; [exact IH | exact W].
Qed.

Lemma trimStart_fixed (s : string) :
  no_leading_space s -> Js.trimStart s = s.
Proof. destruct s as [|c r]; simpl; [reflexivity | now intros ->]. Qed.

Lemma trimEnd_cons (c : ascii) (r : string) :
  Js.trimEnd (String c r) =
  match Js.trimEnd r with
  | EmptyString => if Js.isWhiteSpace c then EmptyString else String c EmptyString
  | String c' r' => String c (String c' r')
  end.
Proof. simpl. destruct (Js.trimEnd r); reflexivity. Qed.

Lemma trimEnd_keeps_head (s : string) :
  no_leading_space s -> no_leading_space (Js.trimEnd s).
Proof.
  destruct s as [|c r]; [trivial|]. intros W. rewrite trimEnd_cons.
  simpl in W. destruct (Js.trimEnd r); [rewrite W|]; exact W.
Qed.

Lemma trimEnd_idempotent (s : string) : Js.trimEnd (Js.trimEnd s) = Js.trimEnd s.
Proof.
  induction s as [|c r IH]; [reflexivity|]. rewrite trimEnd_cons.
  destruct (Js.trimEnd r) as [|c' r'] eqn:E.
  - destruct (Js.isWhiteSpace c) eqn:W; [reflexivity|].
    rewrite trimEnd_cons. simpl. now rewrite W.
  - rewrite trimEnd_cons, IH. reflexivity.
Qed.

Lemma trimEnd_no_trailing (s : string) : no_trailing_space (Js.trimEnd s).
Proof.
  unfold no_trailing_space. induction s as [|c r IH]; [exact I|].
  rewrite trimEnd_cons. destruct (Js.trimEnd r) as [|c' r'].
  - destruct (Js.isWhiteSpace c) eqn:W; [exact I | exact W].
  - exact IH.
Qed.

Lemma trim_idempotent (s : string) : Js.trim (Js.trim s) = Js.trim s.
Proof.
  unfold Js.trim.
  rewrite (trimStart_fixed (Js.trimEnd (Js.trimStart s))).
  - apply trimEnd_idempotent.
  - apply trimEnd_keeps_head, trimStart_no_leading.
Qed.

(** X1. Every name that [CartPage.getCartItemNames] and
    [CheckoutOverviewPage.getCartItemNames] return neither begins nor ends
    with white space, and trimming it again changes nothing; there are as many
    names as name elements on the page. *)
Theorem getCartItemNames_trimmed
        {B : Type} `{Driver B} (s : Session B) :
  exists names,
    CartPage.getCartItemNames s = (Ok names, s)
    /\ CheckoutOverviewPage.getCartItemNames s = (Ok names, s)
    /\ length names =
       length (allTextContents_of (browser s) CartPage.cartItemNames)
    /\ Forall (fun name => no_leading_space name /\ no_trailing_space name
                           /\ Js.trim name = name) names.
Proof.
  eexists. split; [reflexivity|]. split; [reflexivity|].
  split; [apply length_map|].
  apply Forall_forall. intros name Hn. apply in_map_iff in Hn as (raw & <- & _).
  split; [apply trimEnd_keeps_head, trimStart_no_leading|].
  split; [apply trimEnd_no_trailing | apply trim_idempotent].
Qed.

(** ** More on the item checks *)

Lemma forallb_permutation {A} (p : A -> bool) (l l' : list A) :
  Permutation l l' -> forallb p l = forallb p l'.
Proof.
  induction 1 as [|x l l' P IH|x y l|l l' l'' P IH P' IH']; simpl.
  - reflexivity.
  - now rewrite IH.
  - destruct (p x), (p y); reflexivity.
  - now rewrite IH.
Qed.

(** X2. Whatever the expected names (repeated names included),
    [CartPage.verifyCartItems] and [CheckoutOverviewPage.verifyOrderItems]
    succeed if and only if every expected name is among the trimmed names on
    the page and the page shows as many names as were expected; in particular
    an empty expectation succeeds exactly on a page showing no name.  The
    check sends no command. *)
Theorem verifyItems_any_list
        {B : Type} `{Driver B} (expectedItems : list string) (s : Session B) :
  let names := map Js.trim (allTextContents_of (browser s) CartPage.cartItemNames) in
  (fst (CartPage.verifyCartItems expectedItems s) = Ok tt <->
   (forall e, In e expectedItems -> In e names)
   /\ length names = length expectedItems)
  /\ (fst (CheckoutOverviewPage.verifyOrderItems expectedItems s) = Ok tt <->
      (forall e, In e expectedItems -> In e names)
      /\ length names = length expectedItems)
  /\ (fst (CartPage.verifyCartItems [] s) = Ok tt <-> names = [])
  /\ snd (CartPage.verifyCartItems expectedItems s) = s
  /\ snd (CheckoutOverviewPage.verifyOrderItems expectedItems s) = s.
Proof.
  intros names.
  assert (forall l, CartPage.verifyCartItems l s = items_check names l s)
    as Ecart by reflexivity.
  assert (CheckoutOverviewPage.verifyOrderItems expectedItems s =
          items_check names expectedItems s) as Eover by reflexivity.
  rewrite !Ecart, ?Eover.
  split; [apply items_check_ok|]. split; [apply items_check_ok|].
  split; [|split; rewrite items_check_run; reflexivity].
  rewrite items_check_ok. split.
  - intros [_ L]. destruct names; [reflexivity | discriminate L].
  - intros ->. split; [intros x []| reflexivity].
Qed.

Lemma first_missing_Some (actual expected : list string) (m : string) :
  first_missing actual expected = Some m -> In m expected /\ ~ In m actual.
Proof.
  induction expected as [|e r IH]; simpl; [discriminate|].
  destruct (Js.contains actual e) eqn:C.
  - intros E. destruct (IH E). auto.
  - intros [= <-]. split; [auto|]. rewrite <- contains_In, C. discriminate.
Qed.

(** X3. The order in which the expected names are given does not change the
    verdict: two expectations that are permutations of one another succeed
    alike, fail in a [toContain] check alike and fail in the length check
    with the same error, on every page, and send nothing.  Only the name that
    the [toContain] error cites can differ: it is the first missing name in
    the order given. *)
Theorem verifyItems_order_insensitive
        {B : Type} `{Driver B} (expected expected' : list string)
        (s : Session B) :
  Permutation expected expected' ->
  let names :=
    map Js.trim (allTextContents_of (browser s) CartPage.cartItemNames) in
  let same_verdict (a b : outcome unit * Session B) :=
    (fst a = Ok tt <-> fst b = Ok tt)
    /\ ((exists m, fst a = Throw (ToContainFailed names m)) <->
        (exists m', fst b = Throw (ToContainFailed names m')))
    /\ (forall x y, fst a = Throw (ToBeFailed x y) <->
                    fst b = Throw (ToBeFailed x y))
    /\ snd a = s /\ snd b = s in
  same_verdict (CartPage.verifyCartItems expected s)
               (CartPage.verifyCartItems expected' s)
  /\ same_verdict (CheckoutOverviewPage.verifyOrderItems expected s)
                  (CheckoutOverviewPage.verifyOrderItems expected' s)
  /\ (forall m, fst (CartPage.verifyCartItems expected s) =
                  Throw (ToContainFailed names m) ->
                first_missing names expected = Some m).
Proof.
  intros P names same_verdict.
  assert (same_verdict (items_check names expected s)
                       (items_check names expected' s)) as E.
  { subst same_verdict. cbv beta. rewrite !items_check_run. simpl.
    assert (first_missing names expected = None <->
            first_missing names expected' = None) as N.
    { rewrite !first_missing_None, (forallb_permutation _ _ _ P). tauto. }
    rewrite (Permutation_length P).
    destruct (first_missing names expected) as [m|],
             (first_missing names expected') as [m'|];
      try (destruct N as [N1 N2];
           first [discriminate (N1 eq_refl) | discriminate (N2 eq_refl)]).
    - repeat split; try discriminate; eauto.
    - destruct (length names =? length expected'); repeat split;
        try discriminate; try tauto;
        intros [m D]; discriminate D. }
  split; [exact E|]. split; [exact E|].
  intros m. change (CartPage.verifyCartItems expected s)
    with (items_check names expected s).
  rewrite items_check_run. simpl.
  destruct (first_missing names expected) as [m0|].
  - intros [= <-]. reflexivity.
  - destruct (length names =? length expected); discriminate.
Qed.

Lemma verifyItems_order_insensitive_witness :
  fst (CartPage.verifyCartItems [Samples.backpack; Samples.bikeLight]
         (Scripted.start Samples.two_items)) = Ok tt <->
  fst (CartPage.verifyCartItems [Samples.bikeLight; Samples.backpack]
         (Scripted.start Samples.two_items)) = Ok tt.
Proof.
  apply (proj1 (verifyItems_order_insensitive
                  [Samples.backpack; Samples.bikeLight]
                  [Samples.bikeLight; Samples.backpack]
                  (Scripted.start Samples.two_items)
                  (perm_swap _ _ _))).
Defined.

Example verifyItems_cited_name_follows_order :
  fst (CartPage.verifyCartItems [Samples.backpack; Samples.bikeLight]
         (Scripted.start Samples.no_badge)) =
    Throw (ToContainFailed [] Samples.backpack)
  /\ fst (CartPage.verifyCartItems [Samples.bikeLight; Samples.backpack]
            (Scripted.start Samples.no_badge)) =
     Throw (ToContainFailed [] Samples.bikeLight).
Proof. split; reflexivity. Qed.

(** X4. The names read from the page are trimmed, the expected names are
    not: an expectation holding a name that begins or ends with white space
    fails a [toContain] check on every page, with the error that cites the
    first expected name missing from the page. *)
Theorem verifyItems_untrimmed_expectation_fails
        {B : Type} `{Driver B} (expectedItems : list string) (e : string)
        (s : Session B) :
  In e expectedItems -> Js.trim e <> e ->
  let names :=
    map Js.trim (allTextContents_of (browser s) CartPage.cartItemNames) in
  exists missing,
    In missing expectedItems /\ ~ In missing names
    /\ first_missing names expectedItems = Some missing
    /\ fst (CartPage.verifyCartItems expectedItems s) =
       Throw (ToContainFailed names missing)
    /\ fst (CheckoutOverviewPage.verifyOrderItems expectedItems s) =
       Throw (ToContainFailed names missing).
Proof.
  intros He Ht names.
  change (CartPage.verifyCartItems expectedItems s)
    with (items_check names expectedItems s).
  change (CheckoutOverviewPage.verifyOrderItems expectedItems s)
    with (items_check names expectedItems s).
  rewrite items_check_run. simpl.
  destruct (first_missing names expectedItems) as [m|] eqn:M.
  - exists m. destruct (first_missing_Some _ _ _ M). auto.
  - exfalso. apply first_missing_None in M. rewrite forallb_forall in M.
    apply M in He. apply contains_In in He.
    apply in_map_iff in He as (x & <- & _). apply Ht, trim_idempotent.
Qed.

Lemma verifyItems_untrimmed_expectation_fails_witness :
  exists missing,
    In missing ["Sauce Labs Backpack "; "Sauce Labs Bike Light"]
    /\ fst (CartPage.verifyCartItems
              ["Sauce Labs Backpack "; "Sauce Labs Bike Light"]
              (Scripted.start Samples.two_items)) =
       Throw (ToContainFailed ["Sauce Labs Bike Light"; "Sauce Labs Backpack"]
                              missing).
Proof.
  destruct (verifyItems_untrimmed_expectation_fails
              ["Sauce Labs Backpack "; "Sauce Labs Bike Light"]
              "Sauce Labs Backpack "
              (Scripted.start Samples.two_items)
              (or_introl eq_refl)
              ltac:(discriminate)) as (missing & Hin & _ & _ & Hrun & _).
  exists missing. split; [exact Hin | exact Hrun].
Defined.

(** ** More on removing an item *)

Section RemoveMore.
Context {B : Type} `{Driver B}.

Lemma remove_loop_at_most_one (rows : list Locator) (itemName : string)
      (s : Session B) :
  snd (CartPage.removeItemFromCart_loop rows itemName s) = s
  \/ exists row,
      In row rows /\ row_matches (browser s) itemName row = true
      /\ CartPage.removeItemFromCart_loop rows itemName s =
         click (remove_button row) s.
Proof.
  induction rows as [|row rest IH]; [left; reflexivity|].
  rewrite remove_loop_cons.
  destruct (row_name (browser s) row) as [name|e] eqn:E; [|left; reflexivity].
  destruct (CartPage.name_matches name itemName) eqn:Mt.
  - right. exists row. split; [left; reflexivity|].
    split; [|reflexivity]. unfold row_matches. now rewrite E.
  - destruct IH as [IH|(r & Hr & Hm & Hrun)]; [left; exact IH|].
    right. exists r. split; [right; exact Hr|]. split; assumption.
Qed.

Lemma untrimmed_never_matches (b : B) (itemName : string) (row : Locator) :
  Js.trim itemName <> itemName -> row_matches b itemName row = false.
Proof.
  intros N. unfold row_matches, CartPage.name_matches.
  destruct (row_name b row) as [[name|]|e]; try reflexivity.
  apply String.eqb_neq. intros <-. apply N, trim_idempotent.
Qed.

End RemoveMore.

(** X5. Whatever the cart and whatever goes wrong while reading it,
    [CartPage.removeItemFromCart] either leaves the session untouched or
    does exactly one thing: it clicks the remove button of a row on screen
    whose trimmed name is the given name.  It never clicks the button of a
    row with another name, and never more than one button. *)
Theorem removeItemFromCart_at_most_one_click
        {B : Type} `{Driver B} (itemName : string) (s : Session B) :
  snd (CartPage.removeItemFromCart itemName s) = s
  \/ exists row,
      In row (cart_rows (browser s))
      /\ row_matches (browser s) itemName row = true
      /\ CartPage.removeItemFromCart itemName s = click (remove_button row) s
      /\ trace (snd (CartPage.removeItemFromCart itemName s)) =
         trace s ++ [Did (Click (remove_button row))].
Proof.
  change (CartPage.removeItemFromCart itemName s)
    with (CartPage.removeItemFromCart_loop (cart_rows (browser s)) itemName s).
  destruct (remove_loop_at_most_one (cart_rows (browser s)) itemName s)
    as [E|(row & Hr & Hm & E)]; [left; exact E|].
  right. exists row. repeat split; try assumption.
  rewrite E. unfold click. rewrite act_run. reflexivity.
Qed.

(** X6. The name of a row is trimmed before the comparison, the argument is
    not: called with a name that begins or ends with white space,
    [CartPage.removeItemFromCart] removes nothing, whatever the cart. *)
Theorem removeItemFromCart_untrimmed_name_is_noop
        {B : Type} `{Driver B} (itemName : string) (s : Session B) :
  Js.trim itemName <> itemName ->
  snd (CartPage.removeItemFromCart itemName s) = s.
Proof.
  intros N.
  change (CartPage.removeItemFromCart itemName s)
    with (CartPage.removeItemFromCart_loop (cart_rows (browser s)) itemName s).
  apply remove_loop_no_match. intros row _.
  apply untrimmed_never_matches, N.
Qed.

Lemma removeItemFromCart_untrimmed_name_is_noop_witness :
  snd (CartPage.removeItemFromCart " Sauce Labs Backpack"
         (Scripted.start Samples.three_rows)) =
  Scripted.start Samples.three_rows.
Proof.
  apply (removeItemFromCart_untrimmed_name_is_noop
           " Sauce Labs Backpack" (Scripted.start Samples.three_rows)).
  discriminate.
Defined.

(** X7. [CartPage.isCartEmpty] answers true exactly when no cart row is on
    screen, and on such a cart [CartPage.removeItemFromCart] returns normally
    without sending anything, for every name. *)
Theorem isCartEmpty_then_remove_is_noop
        {B : Type} `{Driver B} (s : Session B) :
  (CartPage_rest.isCartEmpty s = (Ok true, s) <-> cart_rows (browser s) = [])
  /\ (CartPage_rest.isCartEmpty s = (Ok true, s) ->
      forall itemName, CartPage.removeItemFromCart itemName s = (Ok tt, s)).
Proof.
  assert (CartPage_rest.isCartEmpty s = (Ok true, s) <->
          cart_rows (browser s) = []) as E.
  { unfold CartPage_rest.isCartEmpty, CartPage_rest.getCartItemCount,
      cart_rows, bind, ret.
    destruct (count_of (browser s) CartPage.cartItems); simpl.
    - split; reflexivity.
    - split; discriminate. }
  split; [exact E|]. intros Hempty itemName. apply E in Hempty.
  change (CartPage.removeItemFromCart itemName s)
    with (CartPage.removeItemFromCart_loop (cart_rows (browser s)) itemName s).
  rewrite Hempty. reflexivity.
Qed.

Lemma isCartEmpty_then_remove_is_noop_witness :
  CartPage.removeItemFromCart "Sauce Labs Backpack"
    (Scripted.start Samples.no_badge) =
  (Ok tt, Scripted.start Samples.no_badge).
Proof.
  apply (proj2 (isCartEmpty_then_remove_is_noop
                  (Scripted.start Samples.no_badge))).
  reflexivity.
Defined.

(** ** More on adding items *)

Section AddMore.
Context {B : Type} `{Driver B}.

Lemma for_of_app {A} (xs ys : list A) (body : A -> M B unit) (s : Session B) :
  for_of (xs ++ ys) body s = (for_of xs body ;; for_of ys body) s.
Proof.
  revert s. induction xs as [|x xs IH]; intros s; [reflexivity|].
  change (for_of ((x :: xs) ++ ys) body)
    with (body x ;; for_of (xs ++ ys) body).
  change (for_of (x :: xs) body) with (body x ;; for_of xs body).
  rewrite bind_assoc_run, !(bind_run (body x)).
  destruct (body x s) as [[[]|e] s1]; [apply IH | reflexivity].
Qed.

End AddMore.

(** X8. Adding a list of items in one call is the same as adding a first
    part of it and then the rest in a second call: the same clicks are sent,
    and a failure in the first part ends both runs alike. *)
Theorem addItemsToCart_in_two_calls
        {B : Type} `{Driver B} (first rest : list string) (s : Session B) :
  InventoryPage.addItemsToCart (first ++ rest) s =
  (InventoryPage.addItemsToCart first ;; InventoryPage.addItemsToCart rest) s.
Proof. apply for_of_app. Qed.

(** X9. [InventoryPage.addItemsToCart] sends nothing but clicks, at most one
    per name given, and only on the add-to-cart controls of the backpack, the
    bike light and the bolt T-shirt: the three further product controls the
    page object declares are out of its reach. *)
Theorem addItemsToCart_clicks_known_controls_only
        {B : Type} `{Driver B} (items : list string) (s : Session B) :
  exists ls,
    trace (snd (InventoryPage.addItemsToCart items s)) = trace s ++ clicked ls
    /\ length ls <= length items
    /\ Forall (fun l => l = InventoryPage.sauceLabsBackpack
                        \/ l = InventoryPage.sauceLabsBikeLight
                        \/ l = InventoryPage.sauceLabsBoltTShirt) ls
    /\ ~ In InventoryPage_rest.sauceLabsFleeceJacket ls
    /\ ~ In InventoryPage_rest.sauceLabsOnesie ls
    /\ ~ In InventoryPage_rest.testAllTheThingsTShirt ls.
Proof.
  assert (exists ls,
    trace (snd (InventoryPage.addItemsToCart items s)) = trace s ++ clicked ls
    /\ length ls <= length items
    /\ Forall (fun l => l = InventoryPage.sauceLabsBackpack
                        \/ l = InventoryPage.sauceLabsBikeLight
                        \/ l = InventoryPage.sauceLabsBoltTShirt) ls)
    as (ls & Ht & Hlen & Hall).
  2:{ exists ls. repeat split; try assumption;
      intros Hin; rewrite Forall_forall in Hall;
      destruct (Hall _ Hin) as [D|[D|D]]; discriminate D. }
  revert s. induction items as [|item rest IH]; intros s.
  - exists []. simpl. rewrite app_nil_r. auto.
  - destruct (control_of item) as [l|] eqn:E.
    + assert (l = InventoryPage.sauceLabsBackpack
              \/ l = InventoryPage.sauceLabsBikeLight
              \/ l = InventoryPage.sauceLabsBoltTShirt) as Hl.
      { unfold control_of in E.
        repeat (destruct (String.eqb _ _); [injection E as <-; auto|]).
        discriminate E. }
      rewrite (addItemsToCart_cons_recognized _ _ _ _ E), bind_run.
      change (click l s) with (act (Click l) s). rewrite act_run.
      destruct (fst (perform (Click l) (browser s))) as [[]|e].
      * destruct (IH (mkSession (snd (perform (Click l) (browser s)))
                                (trace s ++ [Did (Click l)])))
          as (ls & Ht & Hlen & Hall).
        exists (l :: ls). rewrite Ht. simpl. rewrite <- app_assoc.
        split; [reflexivity|]. split; [lia | constructor; assumption].
      * exists [l]. simpl. split; [reflexivity|].
        split; [lia | constructor; [assumption | constructor]].
    + rewrite (addItemsToCart_cons_unrecognized _ _ _ E).
      exists []. simpl. rewrite app_nil_r.
      split; [reflexivity|]. split; [lia | constructor].
Qed.

(** ** More on the completion screen *)

Section CompletionMore.
Context {B : Type} `{Driver B}.

(** The composite check reads the header, then the body, and changes
    nothing. *)
Lemma verifyCheckoutCompletion_run (s : Session B) :
  CheckoutCompletePage.verifyCheckoutCompletion s =
  (match textContent_of (browser s) CheckoutCompletePage.completeHeader with
   | Throw e => Throw e
   | Ok h =>
       match textContent_of (browser s) CheckoutCompletePage.completeText with
       | Throw e => Throw e
       | Ok c =>
           Ok (String.eqb (if_truthy h Js.trim "") "Thank you for your order!"
               && Js.includes (if_truthy c Js.trim "")
                    "Your order has been dispatched")
       end
   end, s).
Proof.
  unfold CheckoutCompletePage.verifyCheckoutCompletion.
  rewrite bind_run, getCompleteHeaderText_run.
  destruct (textContent_of (browser s) CheckoutCompletePage.completeHeader);
    [|reflexivity].
  rewrite bind_run, getCompleteText_run.
  destruct (textContent_of (browser s) CheckoutCompletePage.completeText);
    reflexivity.
Qed.

Lemma verifyThankYouMessage_run (s : Session B) :
  CheckoutCompletePage_rest.verifyThankYouMessage s =
  (match textContent_of (browser s) CheckoutCompletePage.completeHeader with
   | Throw e => Throw e
   | Ok h => Ok (String.eqb (if_truthy h Js.trim "") "Thank you for your order!")
   end, s).
Proof.
  unfold CheckoutCompletePage_rest.verifyThankYouMessage.
  rewrite bind_run, getCompleteHeaderText_run.
  destruct (textContent_of (browser s) CheckoutCompletePage.completeHeader);
    reflexivity.
Qed.

Lemma verifyOrderDispatchMessage_run (s : Session B) :
  CheckoutCompletePage.verifyOrderDispatchMessage s =
  (match textContent_of (browser s) CheckoutCompletePage.completeText with
   | Throw e => Throw e
   | Ok c =>
       Ok (Js.includes (if_truthy c Js.trim "") "Your order has been dispatched"
           && Js.includes (if_truthy c Js.trim "")
                "will arrive just as fast as the pony can get there!")
   end, s).
Proof.
  unfold CheckoutCompletePage.verifyOrderDispatchMessage.
  rewrite bind_run, getCompleteText_run.
  destruct (textContent_of (browser s) CheckoutCompletePage.completeText);
    reflexivity.
Qed.

End CompletionMore.

(** X10. [CheckoutCompletePage.completeOrderAndReturnToInventory] clicks the
    Back Home button exactly when [verifyCheckoutCompletion] returns true, and
    sends nothing else.  It returns true if and only if the check returned
    true and the click went through; when the check returns false it returns
    false, and when the check rejects it rejects alike, the session being
    untouched in both cases. *)
Theorem completeOrderAndReturnToInventory_clicks_iff_complete
        {B : Type} `{Driver B} (s : Session B) :
  let check := fst (CheckoutCompletePage.verifyCheckoutCompletion s) in
  let run := CheckoutCompletePage_rest.completeOrderAndReturnToInventory s in
  (check = Ok true ->
   trace (snd run) = trace s ++ [Did (Click CheckoutCompletePage_rest.backHomeButton)]
   /\ browser (snd run) =
      snd (perform (Click CheckoutCompletePage_rest.backHomeButton) (browser s)))
  /\ (check = Ok false -> run = (Ok false, s))
  /\ (forall e, check = Throw e -> run = (Throw e, s))
  /\ (fst run = Ok true <->
      check = Ok true
      /\ fst (perform (Click CheckoutCompletePage_rest.backHomeButton) (browser s))
         = Ok tt).
Proof.
  intros check run.
  assert (run =
          match check with
          | Ok true =>
              (match fst (perform (Click CheckoutCompletePage_rest.backHomeButton)
                            (browser s)) with
               | Ok _ => Ok true
               | Throw e => Throw e
               end,
               mkSession
                 (snd (perform (Click CheckoutCompletePage_rest.backHomeButton)
                         (browser s)))
                 (trace s ++ [Did (Click CheckoutCompletePage_rest.backHomeButton)]))
          | Ok false => (Ok false, s)
          | Throw e => (Throw e, s)
          end) as E.
  { subst check run.
    unfold CheckoutCompletePage_rest.completeOrderAndReturnToInventory.
    rewrite bind_run, verifyCheckoutCompletion_run. simpl fst.
    destruct (match textContent_of (browser s) CheckoutCompletePage.completeHeader
              with Throw e => Throw e | Ok h => _ end) as [[|]|e];
      try reflexivity.
    change (negb true) with false. cbv iota.
    unfold CheckoutCompletePage_rest.clickBackHomeButton.
    rewrite bind_run. change (click ?l s) with (act (Click l) s).
    rewrite act_run.
    destruct (fst (perform (Click CheckoutCompletePage_rest.backHomeButton)
                     (browser s))) as [[]|e]; reflexivity. }
  rewrite E. clear E. destruct check as [[|]|e].
  - split; [auto|]. split; [discriminate|]. split; [discriminate|]. simpl.
    destruct (fst (perform (Click CheckoutCompletePage_rest.backHomeButton)
                     (browser s))) as [[]|e].
    + split; auto.
    + split; [discriminate | intros [_ D]; discriminate D].
  - split; [discriminate|]. split; [reflexivity|]. split; [discriminate|].
    simpl. split; [discriminate | intros [D _]; discriminate D].
  - split; [discriminate|]. split; [discriminate|].
    split; [intros e' [= <-]; reflexivity|].
    simpl. split; [discriminate | intros [D _]; discriminate D].
Qed.

Lemma completeOrderAndReturnToInventory_clicks_iff_complete_witness :
  trace (snd (CheckoutCompletePage_rest.completeOrderAndReturnToInventory
                (Scripted.start Samples.order_complete))) =
  [Did (Click CheckoutCompletePage_rest.backHomeButton)].
Proof.
  apply (proj1 (completeOrderAndReturnToInventory_clicks_iff_complete
                  (Scripted.start Samples.order_complete))).
  reflexivity.
Defined.

(** X11. The three completion checks the scenario calls in a row agree as
    follows: when [verifyThankYouMessage] and [verifyOrderDispatchMessage]
    both return true so does [verifyCheckoutCompletion]; and when
    [verifyCheckoutCompletion] returns true so does [verifyThankYouMessage].
    None of them sends a command. *)
Theorem completion_checks_agree
        {B : Type} `{Driver B} (s : Session B) :
  (fst (CheckoutCompletePage_rest.verifyThankYouMessage s) = Ok true ->
   fst (CheckoutCompletePage.verifyOrderDispatchMessage s) = Ok true ->
   fst (CheckoutCompletePage.verifyCheckoutCompletion s) = Ok true)
  /\ (fst (CheckoutCompletePage.verifyCheckoutCompletion s) = Ok true ->
      fst (CheckoutCompletePage_rest.verifyThankYouMessage s) = Ok true)
  /\ snd (CheckoutCompletePage.verifyCheckoutCompletion s) = s
  /\ snd (CheckoutCompletePage_rest.verifyThankYouMessage s) = s
  /\ snd (CheckoutCompletePage.verifyOrderDispatchMessage s) = s.
Proof.
  rewrite verifyCheckoutCompletion_run, verifyThankYouMessage_run,
    verifyOrderDispatchMessage_run. simpl.
  destruct (textContent_of (browser s) CheckoutCompletePage.completeHeader)
    as [h|e];
    destruct (textContent_of (browser s) CheckoutCompletePage.completeText)
      as [c|e'];
    repeat split; try discriminate.
  - intros [= ->] [= D]. apply andb_true_iff in D as [-> _]. reflexivity.
  - intros [= D]. apply andb_true_iff in D as [-> _]. reflexivity.
Qed.

Lemma completion_checks_agree_witness :
  fst (CheckoutCompletePage.verifyCheckoutCompletion
         (Scripted.start Samples.order_complete)) = Ok true.
Proof.
  apply (proj1 (completion_checks_agree (Scripted.start Samples.order_complete)));
    reflexivity.
Defined.

(** ** Completing the checkout form *)

Section FormMore.
Context {B : Type} `{Driver B}.

(** A run of commands sends them in order up to and including the first one
    that the driver rejects. *)
Lemma for_of_act_trace (acts : list Action) (s : Session B) :
  exists k, k <= length acts
    /\ trace (snd (for_of acts act s)) = trace s ++ map Did (firstn k acts)
    /\ (fst (for_of acts act s) = Ok tt -> k = length acts).
Proof.
  revert s. induction acts as [|a r IH]; intros s.
  - exists 0. simpl. rewrite app_nil_r. auto.
  - rewrite for_of_cons_run, act_run.
    destruct (fst (perform a (browser s))) as [[]|e].
    + destruct (IH (mkSession (snd (perform a (browser s)))
                              (trace s ++ [Did a]))) as (k & Hk & Ht & Hok).
      exists (S k). simpl in *. rewrite Ht, <- app_assoc. simpl.
      split; [lia|]. split; [reflexivity|]. intros E. f_equal. exact (Hok E).
    + exists 1. simpl. split; [lia|]. split; [reflexivity | discriminate].
Qed.

Lemma fillCheckoutInformation_commands (f l c : string) (s : Session B) :
  CheckoutPage.fillCheckoutInformation f l c s =
  for_of (form_commands f l c) act s.
Proof.
  unfold CheckoutPage.fillCheckoutInformation, CheckoutPage.fillFirstName,
    CheckoutPage.fillLastName, CheckoutPage.fillPostalCode, form_commands,
    clear, fill.
  cbn [for_of]. unfold bind, act, ret. simpl.
  repeat match goal with
         | |- context [perform ?a ?b] =>
             destruct (perform a b) as [[[]|?] ?]; simpl; try reflexivity
         end.
Qed.

Lemma for_of_act_stops (acts : list Action) (s : Session B) :
  stops_at_first_rejection acts s (for_of acts act s).
Proof.
  revert s. induction acts as [|a r IH]; intros s.
  - left. simpl. rewrite app_nil_r. split; [destruct s; reflexivity|].
    intros [|j] a' E; discriminate E.
  - rewrite for_of_cons_run, act_run.
    destruct (fst (perform a (browser s))) as [[]|e] eqn:P.
    + destruct (IH (mkSession (snd (perform a (browser s)))
                              (trace s ++ [Did a])))
        as [[Hrun Hall]|(j & a' & e & Hj & Hbefore & Hrej & Hrun)].
      * left. rewrite Hrun. simpl. rewrite <- app_assoc. split; [reflexivity|].
        intros [|j] a' E; simpl in E |- *.
        -- injection E as <-. exact P.
        -- apply (Hall j a' E).
      * right. exists (S j), a', e. simpl in *.
        split; [exact Hj|]. split.
        -- intros [|i] a'' Hi E; simpl in E |- *.
           ++ injection E as <-. exact P.
           ++ apply (Hbefore i a''); [lia | exact E].
        -- split; [exact Hrej|]. rewrite Hrun, <- app_assoc. reflexivity.
    + right. exists 0, a, e. simpl.
      split; [reflexivity|]. split; [intros i a' Hi; lia|].
      split; [exact P | reflexivity].
Qed.

Lemma completeCheckoutInformation_commands (f l c : string) (s : Session B) :
  CheckoutPage_rest.completeCheckoutInformation f l c s =
  for_of (form_commands f l c ++ [Click CheckoutPage_rest.continueButton]) act s.
Proof.
  unfold CheckoutPage_rest.completeCheckoutInformation,
    CheckoutPage_rest.clickContinueButton.
  rewrite for_of_app, !bind_run, fillCheckoutInformation_commands.
  destruct (for_of (form_commands f l c) act s) as [[[]|e] s1]; [|reflexivity].
  simpl. unfold bind, click, ret.
  destruct (act (Click CheckoutPage_rest.continueButton) s1) as [[[]|e] s2];
    reflexivity.
Qed.

End FormMore.

(** X12. [CheckoutPage.completeCheckoutInformation] sends the six clear and
    fill commands of the form and then the click on Continue, in this order,
    each to the page its predecessors left, and stops at the first command
    that the page rejects, rejecting with its error.  So Continue is clicked
    only after all six form commands were performed successfully: a form that
    could not be filled is never submitted. *)
Theorem completeCheckoutInformation_submits_only_filled_form
        {B : Type} `{Driver B} (f l c : string) (s : Session B) :
  let commands :=
    [Clear CheckoutPage.firstNameInput; Fill CheckoutPage.firstNameInput f;
     Clear CheckoutPage.lastNameInput; Fill CheckoutPage.lastNameInput l;
     Clear CheckoutPage.postalCodeInput; Fill CheckoutPage.postalCodeInput c;
     Click CheckoutPage_rest.continueButton] in
  let run := CheckoutPage_rest.completeCheckoutInformation f l c s in
  stops_at_first_rejection commands s run
  /\ (In (Did (Click CheckoutPage_rest.continueButton))
         (skipn (length (trace s)) (trace (snd run))) ->
      forall j a, j < 6 -> nth_error commands j = Some a ->
        fst (perform a (browser_after (firstn j commands) (browser s))) = Ok tt).
Proof.
  intros commands run.
  assert (stops_at_first_rejection commands s run) as St.
  { subst run. rewrite completeCheckoutInformation_commands.
    apply for_of_act_stops. }
  split; [exact St|].
  destruct St as [[Hrun Hall]|(j & a & e & Hj & Hbefore & Hrej & Hrun)].
  - intros _ j a _ E. apply (Hall j a E).
  - rewrite Hrun. simpl snd. simpl trace.
    rewrite skipn_app, skipn_all, Nat.sub_diag. simpl skipn.
    intros Hin i a' Hi E.
    assert (j = 6) as ->.
    { assert (j < length commands) as Lj
        by (apply nth_error_Some; rewrite Hj; discriminate).
      change (length commands) with 7 in Lj.
      destruct j as [|[|[|[|[|[|[|j]]]]]]]; try lia; try reflexivity;
        exfalso; simpl in Hin;
        repeat (destruct Hin as [Hin|Hin]; [discriminate Hin|]);
        exact Hin. }
    apply (Hbefore i a' Hi E).
Qed.

Lemma completeCheckoutInformation_submits_only_filled_form_witness :
  let s := Scripted.start Samples.no_badge in
  let commands :=
    [Clear CheckoutPage.firstNameInput; Fill CheckoutPage.firstNameInput "demo";
     Clear CheckoutPage.lastNameInput; Fill CheckoutPage.lastNameInput "user";
     Clear CheckoutPage.postalCodeInput; Fill CheckoutPage.postalCodeInput "12345";
     Click CheckoutPage_rest.continueButton] in
  In (Did (Click CheckoutPage_rest.continueButton))
     (skipn (length (trace s))
        (trace (snd (CheckoutPage_rest.completeCheckoutInformation
                       "demo" "user" "12345" s))))
  /\ fst (perform (Fill CheckoutPage.postalCodeInput "12345")
            (browser_after (firstn 5 commands) (browser s))) = Ok tt.
Proof.
  cbv zeta.
  split; [vm_compute; do 6 right; left; reflexivity|].
  apply (proj2 (completeCheckoutInformation_submits_only_filled_form
                  "demo" "user" "12345" (Scripted.start Samples.no_badge)))
    with (j := 5).
  - vm_compute. do 6 right. left. reflexivity.
  - lia.
  - reflexivity.
Defined.

(** ** The time and the calls a retry takes *)

Lemma timers_of_app (a b : list Event) :
  timers_of (a ++ b) = timers_of a ++ timers_of b.
Proof. apply flat_map_app. Qed.

Lemma calls_of_app (a b : list Event) : calls_of (a ++ b) = calls_of a + calls_of b.
Proof. unfold calls_of. now rewrite filter_app, length_app. Qed.

Lemma sumZ_app (a b : list Z) : sumZ (a ++ b) = (sumZ a + sumZ b)%Z.
Proof. induction a as [|x a IH]; simpl; [reflexivity | rewrite IH; lia]. Qed.

Lemma backoff_delays_S (d : Z) (k : nat) :
  backoff_delays d (S k) = backoff_delays d k ++ [(d * 2 ^ Z.of_nat k)%Z].
Proof. unfold backoff_delays. now rewrite seq_S, map_app. Qed.

Lemma backoff_delays_sum (d : Z) (k : nat) :
  sumZ (backoff_delays d k) = (d * (2 ^ Z.of_nat k - 1))%Z.
Proof.
  induction k as [|k IH]; [simpl; lia|].
  rewrite backoff_delays_S, sumZ_app, IH. simpl sumZ.
  rewrite Nat2Z.inj_succ, Z.pow_succ_r by lia. ring.
Qed.

Section RetryCost.
Context {B : Type} `{Driver B} {T : Type}.
Variable fn : M B T.
Variable baseDelay : Z.

Lemma timers_before (s : Session B) (k : nat) :
  (forall st, timers_of (trace (snd (fn st))) = timers_of (trace st)) ->
  timers_of (trace (snd (invoke fn (session_before_attempt fn baseDelay 0 s k)))) =
  timers_of (trace s) ++ backoff_delays baseDelay k.
Proof.
  intros Q. induction k as [|k IH].
  - unfold invoke. rewrite Q. simpl. rewrite timers_of_app. reflexivity.
  - unfold invoke at 1. rewrite Q. simpl session_before_attempt. simpl trace.
    rewrite !timers_of_app, IH, backoff_delays_S. simpl.
    now rewrite app_nil_r, <- app_assoc.
Qed.

Lemma calls_before (s : Session B) (k : nat) :
  (forall st, calls_of (trace (snd (fn st))) = calls_of (trace st)) ->
  calls_of (trace (snd (invoke fn (session_before_attempt fn baseDelay 0 s k)))) =
  calls_of (trace s) + S k.
Proof.
  intros Q. induction k as [|k IH].
  - unfold invoke. rewrite Q. simpl. rewrite calls_of_app. reflexivity.
  - unfold invoke at 1. rewrite Q. simpl session_before_attempt. simpl trace.
    rewrite !calls_of_app, IH. unfold calls_of. simpl. lia.
Qed.

End RetryCost.



(** X14. The two smallest budgets.  With [maxRetries = 0] the helper is the
    wrapped function itself: one call, no wait, its outcome passed on.  With a
    negative [maxRetries] the wrapped function is never called and no timer is
    set: the helper throws [lastError], which was never assigned, that is
    [undefined]. *)
Theorem retryWithBackoff_smallest_budgets
        {B : Type} `{Driver B} {T : Type}
        (fn : M B T) (d : Z) (s : Session B) :
  TestHelpers.retryWithBackoff fn 0 d s = invoke fn s
  /\ forall m, (m < 0)%Z ->
               TestHelpers.retryWithBackoff fn m d s = (Throw Undefined, s).
Proof.
  split; [|intros m N; apply retryWithBackoff_negative, N].
  unfold TestHelpers.retryWithBackoff. simpl.
  rewrite bind_run, retry_body_run.
  destruct (invoke fn s) as [[v|e] s1]; reflexivity.
Qed.

Lemma retryWithBackoff_smallest_budgets_witness :
  TestHelpers.retryWithBackoff Samples.flaky (-1) 1000
    (Scripted.start Samples.no_badge) =
  (Throw Undefined, Scripted.start Samples.no_badge).
Proof.
  apply (proj2 (retryWithBackoff_smallest_budgets
                  Samples.flaky 1000 (Scripted.start Samples.no_badge))).
  lia.
Defined.

(** ** Flaky elements *)

Section Flaky.
Context {B : Type} `{Driver B}.

Lemma act_keeps_timers_and_calls (a : Action) (st : Session B) :
  timers_of (trace (snd (act a st))) = timers_of (trace st)
  /\ calls_of (trace (snd (act a st))) = calls_of (trace st).
Proof.
  rewrite act_run. simpl. rewrite timers_of_app, calls_of_app.
  unfold calls_of. simpl. rewrite app_nil_r. split; [reflexivity | lia].
Qed.

End Flaky.



Example handleFlakyElement_absent_element :
  TestHelpers_rest.handleFlakyElement 0 ".cart_item" click
    (Scripted.start Samples.no_badge) =
  (Throw (TimeoutError "locator.waitFor: Timeout exceeded"),
   mkSession (Scripted.mkPage [] [] 0 3)
     [Invoked; Did (WaitFor (Css ".cart_item") 0); Slept 1000;
      Invoked; Did (WaitFor (Css ".cart_item") 0); Slept 2000;
      Invoked; Did (WaitFor (Css ".cart_item") 0); Slept 4000;
      Invoked; Did (WaitFor (Css ".cart_item") 0)]).
Proof. reflexivity. Qed.

(** ** More on the cart badge *)

Lemma readDigits_decimal_then (d : uint) (a : nat) (c : ascii) (r : string) :
  Js.digitValue c = None ->
  Js.readDigits Js.digitValue 10 (Some (Z.of_nat a))
    (NilEmpty.string_of_uint d ++ String c r) =
  Some (Z.of_nat (Nat.of_uint_acc d a)).
Proof.
  intros D. revert a. induction d; intros a; simpl;
    [now rewrite D | ..];
    match goal with
    | |- Js.readDigits _ _ (Some ?z) _ = Some (Z.of_nat (Nat.of_uint_acc _ ?m)) =>
        replace z with (Z.of_nat m)
          by (rewrite ?Nat.tail_mul_spec; simpl Z.of_nat; lia)
    end; apply IHd.
Qed.

Lemma parseInt_decimal_then (d : uint) (c : ascii) (r : string) :
  d <> Nil ->
  Js.digitValue c = None -> c <> "x"%char -> c <> "X"%char ->
  Js.parseInt (NilEmpty.string_of_uint d ++ String c r) =
  Js.Num (Z.of_nat (Nat.of_uint d)).
Proof.
  intros N D Lx Ux.
  assert (forall (z : Z) (k : nat) (t : uint),
             z = Z.of_nat k ->
             match Js.readDigits Js.digitValue 10 (Some z)
                     (NilEmpty.string_of_uint t ++ String c r) with
             | Some v => Js.Num (1 * v)
             | None => Js.NaN
             end = Js.Num (Z.of_nat (Nat.of_uint_acc t k))) as step.
  { intros z k t ->. rewrite (readDigits_decimal_then _ _ _ _ D). f_equal. lia. }
  destruct d as [|d|d|d|d|d|d|d|d|d|d]; [contradiction | ..];
    try (apply (step _ _ d); reflexivity).
  destruct d; cbn;
    try match goal with
        | |- _ = Js.Num (Z.of_nat (Nat.of_uint_acc ?t ?k)) =>
            exact (step (Z.of_nat k) k t eq_refl)
        end.
  clear step N. revert D Lx Ux.
  destruct c as [[|] [|] [|] [|] [|] [|] [|] [|]]; intros D Lx Ux;
    try discriminate D;
    try (exfalso; apply Lx; reflexivity); try (exfalso; apply Ux; reflexivity);
    reflexivity.
Qed.

Lemma numeral_not_Nil (n : nat) : Nat.to_uint n <> Nil.
Proof.
  intros E. pose proof (f_equal Nat.of_uint E) as E'.
  rewrite DecimalNat.Unsigned.of_to in E'. simpl in E'. subst n.
  vm_compute in E. discriminate E.
Qed.

(** X16. [InventoryPage.getCartItemCount] reads the count off the start of
    the badge text: a numeral followed by any text that begins with a
    character other than a digit, x and X gives the number, and white space
    in front of the text is skipped.  A badge of white space only is not
    taken for an empty badge: the result is [parseInt] of what follows the
    first white space, NaN if nothing does. *)
Theorem getCartItemCount_reads_leading_numeral
        {B : Type} `{Driver B} (s : Session B) :
  (forall (n : nat) (c : ascii) (r : string),
      Js.digitValue c = None -> c <> "x"%char -> c <> "X"%char ->
      textContent_of (browser s) InventoryPage.cartBadge =
        Ok (Some (numeral n ++ String c r)%string) ->
      InventoryPage.getCartItemCount s = (Ok (Js.Num (Z.of_nat n)), s))
  /\ (forall (w : ascii) (t : string),
         Js.isWhiteSpace w = true ->
         textContent_of (browser s) InventoryPage.cartBadge =
           Ok (Some (String w t)) ->
         InventoryPage.getCartItemCount s = (Ok (Js.parseInt t), s))
  /\ (forall (w : ascii),
         Js.isWhiteSpace w = true ->
         textContent_of (browser s) InventoryPage.cartBadge =
           Ok (Some (String w "")) ->
         InventoryPage.getCartItemCount s = (Ok Js.NaN, s)).
Proof.
  assert (forall (w : ascii) (t : string),
             Js.isWhiteSpace w = true ->
             textContent_of (browser s) InventoryPage.cartBadge =
               Ok (Some (String w t)) ->
             InventoryPage.getCartItemCount s = (Ok (Js.parseInt t), s)) as ws.
  { intros w t W E. rewrite getCartItemCount_run, E.
    unfold if_truthy, Js.parseInt. simpl Js.trimStart. rewrite W. reflexivity. }
  split; [|split; [exact ws | intros w W E; exact (ws w "" W E)]].
  intros n c r D Lx Ux E. rewrite getCartItemCount_run, E.
  unfold numeral.
  rewrite <- (DecimalNat.Unsigned.of_to n) at 2.
  rewrite <- (parseInt_decimal_then (Nat.to_uint n) c r
                (numeral_not_Nil n) D Lx Ux).
  destruct (Nat.to_uint n) eqn:U;
    [destruct (numeral_not_Nil n U) | ..]; reflexivity.
Qed.

Lemma getCartItemCount_reads_leading_numeral_witness :
  InventoryPage.getCartItemCount (Scripted.start Samples_rest.badge_3_items) =
  (Ok (Js.Num 3), Scripted.start Samples_rest.badge_3_items).
Proof.
  apply (proj1 (getCartItemCount_reads_leading_numeral
                  (Scripted.start Samples_rest.badge_3_items))
               3 " "%char "items");
    [reflexivity | discriminate | discriminate | reflexivity].
Defined.

(** ** Which screen is shown *)

Lemma url_includes_iff {B : Type} `{PageQueries B} (path : string)
      (s : Session B) :
  snd (url_includes path s) = s
  /\ (fst (url_includes path s) = Ok true <->
      exists pre post, url_of (browser s) = (pre ++ path ++ post)%string)
  /\ (fst (url_includes path s) = Ok false <->
      ~ exists pre post, url_of (browser s) = (pre ++ path ++ post)%string).
Proof.
  unfold url_includes, getCurrentUrl, bind, ret. simpl.
  rewrite <- includes_iff.
  destruct (Js.includes (url_of (browser s)) path).
  - split; [reflexivity|]. split; [tauto|].
    split; [discriminate | intros N; destruct (N eq_refl)].
  - split; [reflexivity|]. split; [split; discriminate|].
    split; [intros _; discriminate | reflexivity].
Qed.

(** X17. Each of the six screen tests answers true exactly when the path of
    its screen occurs somewhere in the current address, whatever comes before
    and after it (host, query string, fragment), and false otherwise; none
    rejects or sends a command.  [LoginPage.isLoggedIn] and
    [InventoryPage.isOnInventoryPage] are the same test. *)
Theorem screen_tests_are_substring_tests
        {B : Type} `{PageQueries B} (s : Session B) :
  let shows (test : M B bool) (path : string) :=
    snd (test s) = s
    /\ (fst (test s) = Ok true <->
        exists pre post, url_of (browser s) = (pre ++ path ++ post)%string)
    /\ (fst (test s) = Ok false <->
        ~ exists pre post, url_of (browser s) = (pre ++ path ++ post)%string) in
  shows LoginPage_rest.isLoggedIn "/inventory.html"
  /\ shows InventoryPage_rest.isOnInventoryPage "/inventory.html"
  /\ shows CartPage_rest.isOnCartPage "/cart.html"
  /\ shows CheckoutPage_rest.isOnCheckoutPage "/checkout-step-one.html"
  /\ shows CheckoutOverviewPage_rest.isOnCheckoutOverviewPage
       "/checkout-step-two.html"
  /\ shows CheckoutCompletePage_rest.isOnCheckoutCompletePage
       "/checkout-complete.html"
  /\ LoginPage_rest.isLoggedIn s = InventoryPage_rest.isOnInventoryPage s.
Proof.
  intros shows. subst shows.
  repeat (split; [apply url_includes_iff|]). reflexivity.
Qed.

Example screen_tests_sample :
  fst (CartPage_rest.isOnCartPage
         (mkSession "https://www.saucedemo.com/cart.html?x=1" [])) = Ok true
  /\ fst (CheckoutPage_rest.isOnCheckoutPage
            (mkSession "https://www.saucedemo.com/cart.html" [])) = Ok false.
Proof. repeat split. Qed.

(** ** Random strings *)

Lemma string_length_append (a b : string) :
  String.length (a ++ b) = String.length a + String.length b.
Proof. induction a as [|c a IH]; simpl; [reflexivity | now rewrite IH]. Qed.

Lemma string_forall_append (p : ascii -> bool) (a b : string) :
  string_forall p (a ++ b) = string_forall p a && string_forall p b.
Proof.
  induction a as [|c a IH]; simpl; [reflexivity|].
  now rewrite IH, andb_assoc.
Qed.

Lemma charAt_chars_in_range (k : nat) :
  k < 62 ->
  exists c, TestHelpers_rest.charAt TestHelpers_rest.chars k = String c ""
            /\ alphanumeric c = true.
Proof.
  intros L.
  do 62 (destruct k as [|k]; [eexists; split; reflexivity|]).
  lia.
Qed.

Lemma charAt_chars_out_of_range (k : nat) :
  62 <= k -> TestHelpers_rest.charAt TestHelpers_rest.chars k = "".
Proof.
  intros L. do 62 (destruct k as [|k]; [lia|]). reflexivity.
Qed.

Lemma generateRandomString_loop_spec (draws : nat -> nat) (todo : nat) :
  forall (i : nat) (result : string),
    string_forall alphanumeric result = true ->
    string_forall alphanumeric
      (TestHelpers_rest.generateRandomString_loop draws todo i result) = true
    /\ String.length
         (TestHelpers_rest.generateRandomString_loop draws todo i result)
       <= String.length result + todo
    /\ ((forall j, i <= j < i + todo -> draws j < 62) ->
        String.length
          (TestHelpers_rest.generateRandomString_loop draws todo i result)
        = String.length result + todo).
Proof.
  induction todo as [|todo IH]; intros i result A;
    cbn [TestHelpers_rest.generateRandomString_loop].
  - split; [exact A|]. split; [lia | intros _; lia].
  - destruct (Nat.lt_ge_cases (draws i) 62) as [L|G].
    + destruct (charAt_chars_in_range _ L) as (c & Ec & Ac). rewrite Ec.
      destruct (IH (S i) (result ++ String c "")%string) as (IA & IL & IE).
      { rewrite string_forall_append, A. simpl. now rewrite Ac. }
      rewrite string_length_append in IL, IE. simpl in IL, IE.
      split; [exact IA|]. split; [lia|].
      intros R. rewrite IE; [lia|]. intros j Hj. apply R. lia.
    + rewrite (charAt_chars_out_of_range _ G).
      destruct (IH (S i) (result ++ "")%string) as (IA & IL & IE).
      { now rewrite string_forall_append, A. }
      rewrite string_length_append in IL. simpl in IL.
      split; [exact IA|]. split; [lia|].
      intros R. assert (draws i < 62) by (apply R; lia). lia.
Qed.

Lemma ceiling_of_nonpositive (q : QArith_base.Q) :
  QArith_base.Qle q (QArith_base.inject_Z 0) -> Z.to_nat (Qround.Qceiling q) = 0.
Proof.
  intros N. pose proof (Qround.Qceiling_lt q) as L.
  pose proof (QArith_base.Qlt_le_trans _ _ _ L N) as L0.
  rewrite <- QArith_base.Zlt_Qlt in L0. lia.
Qed.

(** X18. [TestHelpers.generateRandomString] returns letters and digits only.
    For a finite [length] of at most 2^53 - 1 it returns a string of at most
    [ceil(length)] characters, exactly that many when every draw
    [Math.floor(Math.random() * 62)] is below 62: [length] characters for a
    whole number, and for a fraction the next whole number up (so 3
    characters when asked for 2.5), always fewer than [length + 1].  For a
    [length] of zero or less, NaN or minus infinity it returns the empty
    string; for plus infinity it returns no string. *)
Theorem generateRandomString_alphanumeric
        (draws : nat -> nat) (length : TestHelpers_rest.length_arg) :
  (forall str,
      TestHelpers_rest.generateRandomString draws length = Some str ->
      string_forall alphanumeric str = true
      /\ exists todo,
          TestHelpers_rest.passes length = Some todo
          /\ String.length str <= todo
          /\ ((forall j, j < todo -> draws j < 62) -> String.length str = todo))
  /\ (forall q,
         length = TestHelpers_rest.Finite q ->
         QArith_base.Qle q (QArith_base.inject_Z TestHelpers_rest.maxStringLength) ->
         exists str,
           TestHelpers_rest.generateRandomString draws length = Some str
           /\ TestHelpers_rest.passes length = Some (Z.to_nat (Qround.Qceiling q))
           /\ (QArith_base.Qlt (QArith_base.inject_Z 0) q ->
               QArith_base.Qlt
                 (QArith_base.inject_Z (Z.of_nat (String.length str)))
                 (QArith_base.Qplus q (QArith_base.inject_Z 1)))
           /\ (QArith_base.Qle q (QArith_base.inject_Z 0) -> str = ""))
  /\ (forall z : Z,
         length = TestHelpers_rest.Finite (QArith_base.inject_Z z) ->
         (z <= TestHelpers_rest.maxStringLength)%Z ->
         TestHelpers_rest.passes length = Some (Z.to_nat z))
  /\ (length = TestHelpers_rest.NotANumber
      \/ length = TestHelpers_rest.MinusInfinity ->
      TestHelpers_rest.generateRandomString draws length = Some "")
  /\ (length = TestHelpers_rest.PlusInfinity ->
      TestHelpers_rest.generateRandomString draws length = None).
Proof.
  split; [|split; [|split; [|split]]].
  - intros str E. unfold TestHelpers_rest.generateRandomString in E.
    destruct (TestHelpers_rest.passes length) as [todo|]; [|discriminate E].
    injection E as <-.
    destruct (generateRandomString_loop_spec draws todo 0 "" eq_refl)
      as (A & L & Eq).
    split; [exact A|]. exists todo. split; [reflexivity|]. split; [exact L|].
    intros R. rewrite Eq; [reflexivity|]. intros j Hj. apply R. lia.
  - intros q -> Hq. unfold TestHelpers_rest.generateRandomString.
    simpl TestHelpers_rest.passes.
    rewrite (proj2 (QArith_base.Qle_bool_iff _ _) Hq).
    eexists. split; [reflexivity|]. split; [reflexivity|].
    destruct (generateRandomString_loop_spec draws
                (Z.to_nat (Qround.Qceiling q)) 0 "" eq_refl) as (_ & L & _).
    simpl in L. split.
    + intros Pos.
      eapply QArith_base.Qle_lt_trans
        with (y := QArith_base.inject_Z (Qround.Qceiling q)).
      * pose proof (QArith_base.Qlt_le_trans _ _ _ Pos (Qround.Qle_ceiling q))
          as C0.
        rewrite <- QArith_base.Zlt_Qlt in C0.
        rewrite <- QArith_base.Zle_Qle. lia.
      * pose proof (Qround.Qceiling_lt q) as C.
        apply (QArith_base.Qplus_lt_l _ _ (QArith_base.inject_Z 1)) in C.
        rewrite <- QArith_base.inject_Z_plus in C.
        replace (Qround.Qceiling q - 1 + 1)%Z with (Qround.Qceiling q) in C by lia.
        exact C.
    + intros N. rewrite (ceiling_of_nonpositive q N). reflexivity.
  - intros z -> Hz. simpl.
    rewrite (proj2 (QArith_base.Qle_bool_iff _ _)).
    + now rewrite Qround.Qceiling_Z.
    + rewrite <- QArith_base.Zle_Qle. exact Hz.
  - intros [->| ->]; reflexivity.
  - intros ->. reflexivity.
Qed.

Lemma generateRandomString_alphanumeric_witness :
  exists str,
    TestHelpers_rest.generateRandomString Samples_rest.every_26th
      (TestHelpers_rest.Finite (QArith_base.Qmake 5 2)) = Some str
    /\ TestHelpers_rest.passes
         (TestHelpers_rest.Finite (QArith_base.Qmake 5 2)) = Some 3.
Proof.
  destruct (proj1 (proj2 (generateRandomString_alphanumeric
                            Samples_rest.every_26th
                            (TestHelpers_rest.Finite (QArith_base.Qmake 5 2))))
                  (QArith_base.Qmake 5 2) eq_refl)
    as (str & E & P & _).
  { unfold QArith_base.Qle. vm_compute. discriminate. }
  exists str. split; [exact E | exact P].
Defined.

Example generateRandomString_sample :
  TestHelpers_rest.generateRandomString Samples_rest.every_26th
    (TestHelpers_rest.Finite (QArith_base.inject_Z 8)) = Some "Aa0Aa0Aa"
  /\ TestHelpers_rest.generateRandomString Samples_rest.every_26th
       (TestHelpers_rest.Finite (QArith_base.Qmake 5 2)) = Some "Aa0"
  /\ TestHelpers_rest.generateRandomString Samples_rest.every_26th
       (TestHelpers_rest.Finite (QArith_base.Qmake (-1) 2)) = Some "".
Proof. repeat split. Qed.
